(** * GEOSIF-ARSET: the GeoTIFF-to-PNG converter and its web viewer

    A shallow embedding of [notebooks/gosif.ipynb] (the Python cell that
    defines [convert_geotiff_to_png]) and of [notebooks/gosif.html] (the
    script that defines [loadGeoPNG]), together with the archive client
    of the second notebook, which the repository calls but whose code
    lives in the [geosif] package.

    Numbers that the code holds as IEEE doubles (raster bounds, every
    JavaScript number) are Rocq's primitive [float]; the raster band is
    an integer band, as the GOSIF product is, and its samples are [Z]. *)

From Stdlib Require Import ZArith List Bool Lia.
From Stdlib Require Import Floats.PrimFloat Numbers.Cyclic.Int63.Uint63.
From Stdlib Require Import Floats.SpecFloat Floats.FloatOps Floats.FloatAxioms.
From stdpp Require Import gmap strings list.

Set Warnings "-register-all".

Local Open Scope string_scope.
Local Open Scope Z_scope.

(** ** Computations that may raise

    Both languages are modelled with one monad: a computation reads and
    writes a state [S] and either returns a value or raises an error of
    type [E].  The state at the point of the raise is kept, so that a
    handler sees every effect that happened before it. *)

Inductive result (E A : Type) : Type :=
| Ok (a : A)
| Err (e : E).
Arguments Ok {E A} a.
Arguments Err {E A} e.

Definition M (E S A : Type) : Type := S -> result E A * S.

Definition ret {E S A} (a : A) : M E S A := fun s => (Ok a, s).

Definition raise {E S A} (e : E) : M E S A := fun s => (Err e, s).

Definition bind {E S A B} (c : M E S A) (k : A -> M E S B) : M E S B :=
  fun s =>
    match c s with
    | (Ok a, s') => k a s'
    | (Err e, s') => (Err e, s')
    end.

Definition lift {E S A} (r : result E A) : M E S A := fun s => (r, s).

Definition get {E S} : M E S S := fun s => (Ok s, s).

Definition modify {E S} (f : S -> S) : M E S unit := fun s => (Ok tt, f s).

(** [try_catch body handler] is [try { body } catch (e) { handler e }]
    (Python's [try: ... except: ...]). *)
Definition try_catch {E S A} (body : M E S A) (handler : E -> M E S A) : M E S A :=
  fun s =>
    match body s with
    | (Ok a, s') => (Ok a, s')
    | (Err e, s') => handler e s'
    end.

Notation "'let!' x ':=' c 'in' k" := (bind c (fun x => k))
  (at level 10, x name, c at level 100, k at level 200).
Notation "'do!' c 'in' k" := (bind c (fun _ => k))
  (at level 10, c at level 100, k at level 200).

(** ** The sidecar document

    What [json.dump] writes and what [Response.json()] reads, as a tree
    of tokens.  An integer literal and a float literal are kept apart,
    as Python writes them; a float literal may be one of the tokens
    [NaN], [Infinity], [-Infinity], which Python emits for a double that
    is not finite and which are not JSON. *)

Inductive json : Type :=
| JNull
| JBool (b : bool)
| JInt (z : Z)
| JFloat (f : float)
| JString (s : string)
| JArray (items : list json)
| JObject (members : list (string * json)).

(** ** Python values of the metadata dictionary *)

Inductive pyval : Type :=
| PyInt (z : Z)
| PyFloat (f : float)
| PyStr (s : string)
| PyDict (items : list (string * pyval)).

(** [json.dump(obj, f)] with the default options: a dict becomes an
    object with its items in insertion order, an int an integer
    literal, a float its [repr] (with [allow_nan=True], so a double
    that is not finite is written as one of the three tokens above). *)
Fixpoint json_dump (v : pyval) : json :=
  match v with
  | PyInt z => JInt z
  | PyFloat f => JFloat f
  | PyStr s => JString s
  | PyDict items =>
      JObject ((fix dump_items (l : list (string * pyval)) : list (string * json) :=
                  match l with
                  | [] => []
                  | (k, x) :: l' => (k, json_dump x) :: dump_items l'
                  end) items)
  end.

(** ** The source raster, as [rasterio.open] presents it *)

(** [rasterio.coords.BoundingBox], a named tuple with the fields
    [left], [bottom], [right], [top] in this order. *)
Module BoundingBox.
Record t : Type := make { left : float; bottom : float; right : float; top : float }.

(** [bounds._asdict()] *)
Definition _asdict (b : t) : pyval :=
  PyDict [("left", PyFloat (left b)); ("bottom", PyFloat (bottom b));
          ("right", PyFloat (right b)); ("top", PyFloat (top b))].
End BoundingBox.

(** A two-dimensional integer array, row by row. *)
Definition ndarray : Type := list (list Z).

(** The attributes of the opened dataset that the converter reads.
    [band1] is what [src.read(1)] returns; [crs] is [None] for a raster
    that carries no coordinate reference system. *)
Record DatasetReader : Type := {
  band1 : ndarray;
  bounds : BoundingBox.t;
  width : Z;
  height : Z;
  crs : option string
}.

(** ** The rendered image *)

(** One RGBA pixel with 8-bit channels. *)
Record rgba : Type := { red : Z; green : Z; blue : Z; alpha : Z }.

(** The colour scale: [colors.Normalize(vmin=..., vmax=...)].  Either
    bound may be numpy's [masked] constant, which is [None] here. *)
Record Normalize : Type := { vmin : option Z; vmax : option Z }.

(** What [plt.savefig] is given: the RGBA array of the image artist,
    one entry per sample of the band, and the figure's geometry.  How
    the renderer resamples the array onto the canvas is the plotting
    library's business and is not modelled. *)
Record figure : Type := {
  fig_image : list (list rgba);
  fig_figsize : float * float;
  fig_dpi : Z;
  fig_transparent : bool
}.

(** ** Files *)

Inductive file : Type :=
| GeoTiff (src : DatasetReader)
| PngFile (fig : figure)
| JsonFile (doc : json).

(** The directory the notebook and the page live in, by relative path. *)
Abbreviation filesystem := (gmap string file).

Inductive pyerr : Type :=
| RasterioIOError
| AttributeError
| ValueError.

(** ** The numpy operations the converter calls *)

(** An element of a masked array: the sample and its mask bit. *)
Definition masked_elt (A : Type) : Type := A * bool.

(** [data > threshold] *)
Definition gt (data : ndarray) (threshold : Z) : list (list bool) :=
  map (map (fun v => threshold <? v)) data.

(** [np.ma.masked_array(data, mask)] *)
Definition masked_array (data : ndarray) (mask : list (list bool))
  : list (list (masked_elt Z)) :=
  map (fun row => combine (fst row) (snd row)) (combine data mask).

(** [valid_data <= threshold]: a masked boolean array with the same
    mask, whose data is the comparison of the underlying samples
    (the ordering comparisons of [MaskedArray] in numpy 2, which the
    notebook's Python 3.13 kernel runs). *)
Definition le (a : list (list (masked_elt Z))) (threshold : Z)
  : list (list (masked_elt bool)) :=
  map (map (fun e : masked_elt Z => (fst e <=? threshold, snd e))) a.

(** [a[index]] with a boolean index: the elements of [a], in row-major
    order, at which the index data is true. *)
Definition getitem (a : list (list (masked_elt Z))) (index : list (list (masked_elt bool)))
  : list (masked_elt Z) :=
  map fst (filter (fun p : masked_elt Z * masked_elt bool => fst (snd p))
                  (combine (concat a) (concat index))).

(** The samples that are not masked. *)
Definition compressed (a : list (masked_elt Z)) : list Z :=
  map fst (filter (fun e : masked_elt Z => negb (snd e)) a).

(** [MaskedArray.min()] and [MaskedArray.max()] over all elements,
    which [np.nanmin] and [np.nanmax] dispatch to for a masked integer
    array: a zero-size array raises [ValueError], an array whose
    elements are all masked gives [masked], otherwise the minimum
    (maximum) of the samples that are not masked. *)
Definition reduce (op : Z -> Z -> Z) (a : list (masked_elt Z)) : result pyerr (option Z) :=
  match a with
  | [] => Err ValueError
  | _ :: _ =>
      match compressed a with
      | [] => Ok None
      | x :: xs => Ok (Some (fold_left op xs x))
      end
  end.

Definition nanmin (a : list (masked_elt Z)) : result pyerr (option Z) := reduce Z.min a.
Definition nanmax (a : list (masked_elt Z)) : result pyerr (option Z) := reduce Z.max a.

(** The samples at most the threshold, in row-major order. *)
Definition valid_samples (data : ndarray) (t : Z) : list Z :=
  filter (fun v => v <=? t) (concat data).

(** [m] is the least (greatest) element of [l]. *)
Definition is_min (m : Z) (l : list Z) : Prop := m ∈ l /\ forall v, v ∈ l -> m <= v.
Definition is_max (m : Z) (l : list Z) : Prop := m ∈ l /\ forall v, v ∈ l -> v <= m.

(** The double nearest to an integer below 2^63 in absolute value,
    which covers the size of any raster. *)
Definition float_of_Z (z : Z) : float :=
  match z with
  | Z0 => PrimFloat.zero
  | Zpos _ => PrimFloat.of_uint63 (Uint63.of_Z z)
  | Zneg _ => PrimFloat.opp (PrimFloat.of_uint63 (Uint63.of_Z (- z)))
  end.

(** ** The plotting operations the converter calls *)

(** A colormap: the colour it gives a sample under a colour scale (the
    lookup table is the plotting library's), and the colour it gives a
    masked sample. *)
Record Colormap : Type := {
  cm_lookup : Normalize -> Z -> Z * Z * Z;
  cm_bad : rgba
}.

(** [cmap.set_bad(alpha=a)]: the colour of masked samples becomes black
    (the default [color='k']) with opacity [a]. *)
Definition set_bad (cmap : Colormap) (a : Z) : Colormap :=
  {| cm_lookup := cm_lookup cmap;
     cm_bad := {| red := 0; green := 0; blue := 0; alpha := a |} |}.

(** [ax.imshow(a, cmap=cmap, norm=norm)]: a masked sample takes the
    colormap's bad colour, any other the opaque colour looked up for
    it. *)
Definition imshow (a : list (list (masked_elt Z))) (cmap : Colormap) (norm : Normalize)
  : list (list rgba) :=
  map (map (fun e : masked_elt Z =>
              if snd e then cm_bad cmap
              else let '(r, g, b) := cm_lookup cmap norm (fst e) in
                   {| red := r; green := g; blue := b; alpha := 255 |})) a.

(** ** File operations *)

Definition rasterio_open (path : string) : M pyerr filesystem DatasetReader :=
  fun fs =>
    match fs !! path with
    | Some (GeoTiff src) => (Ok src, fs)
    | _ => (Err RasterioIOError, fs)
    end.

(** [src.crs.to_string()]: an attribute access on [None] when the
    raster has no coordinate reference system. *)
Definition crs_to_string (c : option string) : result pyerr string :=
  match c with
  | Some s => Ok s
  | None => Err AttributeError
  end.

Definition savefig (path : string) (fig : figure) : M pyerr filesystem unit :=
  modify (fun fs => <[path := PngFile fig]> fs).

Definition write_json (path : string) (obj : pyval) : M pyerr filesystem unit :=
  modify (fun fs => <[path := JsonFile (json_dump obj)]> fs).

(** ** [convert_geotiff_to_png] *)

Section Converter.

(** [plt.cm.viridis] *)
Variable viridis : Colormap.

Definition default_threshold : Z := 32760.

(** The colour scale of the band: lines 35-39 of the cell. *)
Definition color_scale (data : ndarray) (threshold : Z) : result pyerr Normalize :=
  let mask := gt data threshold in
  let valid_data := masked_array data mask in
  match nanmin (concat valid_data) with
  | Err e => Err e
  | Ok lo =>
      match nanmax (getitem valid_data (le valid_data threshold)) with
      | Err e => Err e
      | Ok hi => Ok {| vmin := lo; vmax := hi |}
      end
  end.

(** [threshold] is [None] when the caller leaves the parameter out. *)
Definition convert_geotiff_to_png
    (geotiff_path output_png_path output_metadata_path : string)
    (threshold : option Z) : M pyerr filesystem unit :=
  let threshold := default default_threshold threshold in
  let! src := rasterio_open geotiff_path in
  let data := band1 src in
  let! crs_string := lift (crs_to_string (crs src)) in
  let metadata :=
    PyDict [("bounds", BoundingBox._asdict (bounds src));
            ("width", PyInt (width src));
            ("height", PyInt (height src));
            ("crs", PyStr crs_string)] in
  let mask := gt data threshold in
  let valid_data := masked_array data mask in
  let! norm_data := lift (color_scale data threshold) in
  let dpi := 360 in
  let width_inches := PrimFloat.div (float_of_Z (width src)) (float_of_Z dpi) in
  let height_inches := PrimFloat.div (float_of_Z (height src)) (float_of_Z dpi) in
  let cmap := set_bad viridis 0 in
  let fig :=
    {| fig_image := imshow valid_data cmap norm_data;
       fig_figsize := (width_inches, height_inches);
       fig_dpi := dpi;
       fig_transparent := true |} in
  do! savefig output_png_path fig in
  do! write_json output_metadata_path metadata in
  ret tt.

(** The cell's last line. *)
Definition example_usage : M pyerr filesystem unit :=
  convert_geotiff_to_png "data/GOSIF_2020.M06.tif" "data/GOSIF_2020.M06.png"
    "data/GOSIF_2020.M06_metadata.json" None.

End Converter.

(** The figure the converter saves for a raster, a threshold and a
    colour scale. *)
Definition saved_figure (viridis : Colormap) (t : Z) (src : DatasetReader) (norm : Normalize)
  : figure :=
  {| fig_image := imshow (masked_array (band1 src) (gt (band1 src) t)) (set_bad viridis 0) norm;
     fig_figsize := (PrimFloat.div (float_of_Z (width src)) (float_of_Z 360),
                     PrimFloat.div (float_of_Z (height src)) (float_of_Z 360));
     fig_dpi := 360;
     fig_transparent := true |}.

(** The sidecar as the spec describes it: an object with the members
    [bounds] (an object with the numeric members [left], [bottom],
    [right], [top]), [width] and [height] (integers) and [crs] (a
    string). *)
Definition sidecar (b : BoundingBox.t) (w h : Z) (c : string) : json :=
  JObject [("bounds", JObject [("left", JFloat (BoundingBox.left b));
                               ("bottom", JFloat (BoundingBox.bottom b));
                               ("right", JFloat (BoundingBox.right b));
                               ("top", JFloat (BoundingBox.top b))]);
           ("width", JInt w);
           ("height", JInt h);
           ("crs", JString c)].

(** Whether the four bounds are finite doubles. *)
Definition bounds_finite (b : BoundingBox.t) : bool :=
  PrimFloat.is_finite (BoundingBox.left b) && PrimFloat.is_finite (BoundingBox.bottom b) &&
  PrimFloat.is_finite (BoundingBox.right b) && PrimFloat.is_finite (BoundingBox.top b).

(** ** JavaScript values *)

Inductive jsval : Type :=
| JsUndefined
| JsNull
| JsBool (b : bool)
| JsNumber (f : float)
| JsString (s : string)
| JsArray (items : list jsval)
| JsObject (props : list (string * jsval)).

Inductive jserr : Type :=
| FetchError          (* the promise of [fetch] rejected *)
| SyntaxError         (* the body is not JSON *)
| TypeError           (* a property of [undefined] or [null] was read *)
| OlError (msg : string).  (* thrown by the map library *)

(** [obj[key] = v] on a plain object: an existing property keeps its
    place and takes the new value, a new one is added. *)
Fixpoint set_prop (key : string) (v : jsval) (props : list (string * jsval))
  : list (string * jsval) :=
  match props with
  | [] => [(key, v)]
  | (k, x) :: rest =>
      if String.eqb k key then (k, v) :: rest else (k, x) :: set_prop key v rest
  end.

Fixpoint get_prop (key : string) (props : list (string * jsval)) : jsval :=
  match props with
  | [] => JsUndefined
  | (k, x) :: rest => if String.eqb k key then x else get_prop key rest
  end.

(** [JSON.parse] on a document: [None] is its [SyntaxError].  A float
    token that is not a finite number is not JSON; both kinds of
    number literal become a JavaScript number; when a member name
    occurs twice the later value wins. *)
Fixpoint JSON_parse (j : json) : option jsval :=
  match j with
  | JNull => Some JsNull
  | JBool b => Some (JsBool b)
  | JInt z => Some (JsNumber (float_of_Z z))
  | JFloat f => if PrimFloat.is_finite f then Some (JsNumber f) else None
  | JString s => Some (JsString s)
  | JArray items =>
      option_map JsArray
        ((fix parse_items (l : list json) : option (list jsval) :=
            match l with
            | [] => Some []
            | x :: l' =>
                match JSON_parse x, parse_items l' with
                | Some v, Some vs => Some (v :: vs)
                | _, _ => None
                end
            end) items)
  | JObject members =>
      option_map JsObject
        ((fix parse_members (l : list (string * json)) (acc : list (string * jsval))
            : option (list (string * jsval)) :=
            match l with
            | [] => Some acc
            | (k, x) :: l' =>
                match JSON_parse x with
                | Some v => parse_members l' (set_prop k v acc)
                | None => None
                end
            end) members [])
  end.




(** [v.key] for the member names the page reads ([bounds], [left],
    [bottom], [right], [top], [crs]; none of them is defined on a
    built-in prototype): a [TypeError] on [undefined] and [null],
    the own property of an object, [undefined] on anything else. *)
Definition js_get (v : jsval) (key : string) : result jserr jsval :=
  match v with
  | JsUndefined | JsNull => Err TypeError
  | JsObject props => Ok (get_prop key props)
  | _ => Ok JsUndefined
  end.

(** [ToBoolean] *)
Definition truthy (v : jsval) : bool :=
  match v with
  | JsUndefined | JsNull => false
  | JsBool b => b
  | JsNumber f => negb (PrimFloat.is_zero f || PrimFloat.is_nan f)
  | JsString s => match s with EmptyString => false | String _ _ => true end
  | JsArray _ | JsObject _ => true
  end.

(** [a || b] *)
Definition js_or (a b : jsval) : jsval := if truthy a then a else b.

(** ** What the page talks to: the network and the map library *)

(** The body of an HTTP response: a document, or text that is not one
    (an error page, an image). *)
Inductive body : Type :=
| NotJson
| Doc (j : json).

Record Response : Type := { resp_body : body }.

(** [response.json()] *)
Definition Response_json (r : Response) : result jserr jsval :=
  match resp_body r with
  | NotJson => Err SyntaxError
  | Doc j =>
      match JSON_parse j with
      | Some v => Ok v
      | None => Err SyntaxError
      end
  end.

(** The options object given to [new ol.source.ImageStatic]; the source
    object is identified with it. *)
Record ImageStatic : Type := {
  url : string;
  imageExtent : jsval;
  projection : jsval
}.

Inductive layer : Type :=
| VectorTile (style : string)
| Image (source : ImageStatic) (opacity : float).

(** The page: the map's layer collection and the console. *)
Record page : Type := {
  layers : list layer;
  console : list (string * jserr)
}.

(** [map.getLayers().insertAt(index, elem)]: the collection refuses an
    index past its length and otherwise splices the element in. *)
Definition insertAt (index : nat) (elem : layer) : M jserr page unit :=
  fun st =>
    if (length (layers st) <? index)%nat
    then (Err (OlError "Index out of bounds"), st)
    else (Ok tt, {| layers := take index (layers st) ++ elem :: drop index (layers st);
                    console := console st |}).

(** [console.error(msg, error)] *)
Definition console_error (msg : string) (error : jserr) : M jserr page unit :=
  modify (fun st => {| layers := layers st; console := console st ++ [(msg, error)] |}).

(** ** [loadGeoPNG] and the page's load handler *)

Section Viewer.

(** [fetch(url)], awaited: a response, or the rejection of the
    promise. *)
Variable fetch : string -> result jserr Response.

(** Whether the library's constructors throw on the options they are
    given ([None]: they do not). *)
Variable ImageStatic_throws : ImageStatic -> option jserr.
Variable Image_throws : ImageStatic -> float -> option jserr.

(** [new ol.source.ImageStatic(options)] *)
Definition new_ImageStatic (options : ImageStatic) : result jserr ImageStatic :=
  match ImageStatic_throws options with
  | Some e => Err e
  | None => Ok options
  end.

(** [new ol.layer.Image({source: source, opacity: opacity})] *)
Definition new_Image (source : ImageStatic) (opacity : float) : result jserr layer :=
  match Image_throws source opacity with
  | Some e => Err e
  | None => Ok (Image source opacity)
  end.

(** The double nearest to 0.9. *)
Definition opacity_0_9 : float := 0x1.ccccccccccccdp-1%float.

(** The body of the [try] block. *)
Definition loadGeoPNG_try (pngUrl metadataUrl : string) : M jserr page unit :=
  let! metadataResponse := lift (fetch metadataUrl) in
  let! metadata := lift (Response_json metadataResponse) in
  let! bounds := lift (js_get metadata "bounds") in
  let! left := lift (js_get bounds "left") in
  let! bottom := lift (js_get bounds "bottom") in
  let! right := lift (js_get bounds "right") in
  let! top := lift (js_get bounds "top") in
  let extent := JsArray [left; bottom; right; top] in
  let! crs := lift (js_get metadata "crs") in
  let! source := lift (new_ImageStatic
                         {| url := pngUrl;
                            imageExtent := extent;
                            projection := js_or crs (JsString "EPSG:4326") |}) in
  let! sifLayer := lift (new_Image source opacity_0_9) in
  insertAt 1 sifLayer.

Definition loadGeoPNG (pngUrl metadataUrl : string) : M jserr page unit :=
  try_catch (loadGeoPNG_try pngUrl metadataUrl)
    (fun error => console_error "Error loading colormapped PNG:" error).

Definition baseLayer : layer := VectorTile "baseStyleFunction".
Definition labelsLayer : layer := VectorTile "labelStyleFunction".

Definition pngFile : string := "data/GOSIF_2020.M06.png".
Definition metadataFile : string := "data/GOSIF_2020.M06_metadata.json".

(** The page as [new ol.Map] leaves it. *)
Definition initial_page : page := {| layers := [baseLayer]; console := [] |}.

(** The tail of the [DOMContentLoaded] handler. *)
Definition on_DOMContentLoaded : M jserr page unit :=
  do! insertAt 1 labelsLayer in
  loadGeoPNG pngFile metadataFile.

End Viewer.

(** The page with the overlay in place: the image layer spliced in at
    index 1. *)
Definition overlay_placed (st : page) (source : ImageStatic) : page :=
  {| layers := take 1 (layers st) ++ Image source opacity_0_9 :: drop 1 (layers st);
     console := console st |}.

(** The page after a logged failure: the layers as they were, one more
    line on the console. *)
Definition failure_logged (st : page) (e : jserr) : page :=
  {| layers := layers st;
     console := console st ++ [("Error loading colormapped PNG:", e)] |}.

(** The object [JSON.parse] makes of a sidecar with finite bounds. *)
Definition parsed_sidecar (b : BoundingBox.t) (w h : Z) (c : string) : jsval :=
  JsObject [("bounds", JsObject [("left", JsNumber (BoundingBox.left b));
                                 ("bottom", JsNumber (BoundingBox.bottom b));
                                 ("right", JsNumber (BoundingBox.right b));
                                 ("top", JsNumber (BoundingBox.top b))]);
            ("width", JsNumber (float_of_Z w));
            ("height", JsNumber (float_of_Z h));
            ("crs", JsString c)].

(** The extent the overlay is placed with when it shows a raster with
    the bounds [b]. *)
Definition extent_of_bounds (b : BoundingBox.t) : jsval :=
  JsArray [JsNumber (BoundingBox.left b); JsNumber (BoundingBox.bottom b);
           JsNumber (BoundingBox.right b); JsNumber (BoundingBox.top b)].

(** The development server: a sidecar on disk is served as a document,
    anything else (a missing file, an image) as a body that is not
    one. *)
Definition serve (fs : filesystem) (path : string) : result jserr Response :=
  match fs !! path with
  | Some (JsonFile doc) => Ok {| resp_body := Doc doc |}
  | _ => Ok {| resp_body := NotJson |}
  end.

(** ** The archive client of the second notebook

    The notebook calls [dl.download_timerange(dataset, start_date,
    end_date, outpath=..., parallel=True)] and unpacks three
    collections.  The method belongs to the [geosif] package. *)

(** A granule of the archive: where it is fetched from and the name of
    the file it is stored under. *)
Record granule : Type := { g_url : string; g_name : string }.

(** What a download acts on: the files present locally and the
    requests sent to the archive so far. *)
Record dl_state : Type := {
  local_files : gset string;
  requests : list string
}.

(** The three collections the method returns. *)
Record dl_result : Type := {
  dl_granules : list string;    (* paths of the granules that are in place *)
  dates_notfound : list Z;      (* dates the archive has no granule for *)
  failed_dls : list string      (* URLs whose download failed *)
}.

Definition local_path (outpath : string) (g : granule) : string :=
  outpath +:+ "/" +:+ g_name g.

Section Downloader.

(** The archive's catalog: the granule of a dataset for a day, if
    there is one.  Days are numbered. *)
Variable catalog : string -> Z -> option granule.

(** Modelled from the spec: the download of one date, which
    [GesDiscDownloader] implements in the [geosif] package.  A date
    without a granule goes to the dates with no data; a granule whose
    file is already present locally is not fetched again and counts
    as downloaded; otherwise the file is requested, and lands in the
    downloaded or in the failed collection according to the outcome
    [transfer] of the request. *)
Definition download_date (transfer : string -> bool) (dataset outpath : string)
    (date : Z) (acc : dl_result) (st : dl_state) : dl_result * dl_state :=
  match catalog dataset date with
  | None =>
      ({| dl_granules := dl_granules acc;
          dates_notfound := dates_notfound acc ++ [date];
          failed_dls := failed_dls acc |}, st)
  | Some g =>
      let path := local_path outpath g in
      if decide (path ∈ local_files st) then
        ({| dl_granules := dl_granules acc ++ [path];
            dates_notfound := dates_notfound acc;
            failed_dls := failed_dls acc |}, st)
      else if transfer (g_url g) then
        ({| dl_granules := dl_granules acc ++ [path];
            dates_notfound := dates_notfound acc;
            failed_dls := failed_dls acc |},
         {| local_files := {[path]} ∪ local_files st;
            requests := requests st ++ [g_url g] |})
      else
        ({| dl_granules := dl_granules acc;
            dates_notfound := dates_notfound acc;
            failed_dls := failed_dls acc ++ [g_url g] |},
         {| local_files := local_files st;
            requests := requests st ++ [g_url g] |})
  end.

(** Modelled from the spec: the dates of the range are handled one
    after the other, each adding to the three collections. *)
Fixpoint download_dates (transfer : string -> bool) (dataset outpath : string)
    (dates : list Z) (acc : dl_result) (st : dl_state) : dl_result * dl_state :=
  match dates with
  | [] => (acc, st)
  | d :: rest =>
      let '(acc', st') := download_date transfer dataset outpath d acc st in
      download_dates transfer dataset outpath rest acc' st'
  end.

(** Modelled from the spec: [GesDiscDownloader.download_timerange] of
    the [geosif] package, over the days from [start_date] to
    [end_date], both included.  [parallel] only chooses how the
    library schedules the requests. *)
Definition download_timerange (transfer : string -> bool) (dataset : string)
    (start_date end_date : Z) (outpath : string) (parallel : bool)
    (st : dl_state) : dl_result * dl_state :=
  download_dates transfer dataset outpath
    (seqZ start_date (end_date - start_date + 1))
    {| dl_granules := []; dates_notfound := []; failed_dls := [] |} st.

(** What a run over [dates] from [(acc, st)] to [(acc', st')] keeps:
    files only accumulate; a granule that was present at the start is
    reported as downloaded; whatever is reported as downloaded is
    present at the end; and every request, and every failure, is for a
    granule that was not present at the start. *)
Definition run_invariant (dataset outpath : string) (dates : list Z) (acc : dl_result) (st : dl_state)
    (acc' : dl_result) (st' : dl_state) : Prop :=
  local_files st ⊆ local_files st' /\
  (forall p, p ∈ dl_granules acc -> p ∈ dl_granules acc') /\
  (forall p, p ∈ dl_granules acc' ->
     p ∈ dl_granules acc \/
     exists d g, d ∈ dates /\ catalog dataset d = Some g /\
                 p = local_path outpath g /\ p ∈ local_files st') /\
  (forall d g, d ∈ dates -> catalog dataset d = Some g ->
     local_path outpath g ∈ local_files st -> local_path outpath g ∈ dl_granules acc') /\
  (forall u, u ∈ requests st' ->
     u ∈ requests st \/
     exists d g, d ∈ dates /\ catalog dataset d = Some g /\
                 g_url g = u /\ local_path outpath g ∉ local_files st) /\
  (forall u, u ∈ failed_dls acc' ->
     u ∈ failed_dls acc \/
     exists d g, d ∈ dates /\ catalog dataset d = Some g /\
                 g_url g = u /\ local_path outpath g ∉ local_files st).

End Downloader.

(** ** The style functions of the two vector-tile layers *)

(** [new ol.style.Fill({color: ...})] *)
Record Fill : Type := { fill_color : string }.

(** [new ol.style.Stroke({color: ..., width: ...})]; the page never
    sets a line dash. *)
Record Stroke : Type := { stroke_color : string; stroke_width : Z }.

(** [new ol.style.Text({...})] with the options the page gives it. *)
Record Text : Type := {
  text_text : jsval;
  text_font : string;
  text_fill : Fill;
  text_stroke : Stroke;
  text_textAlign : string;
  text_textBaseline : string;
  text_padding : list Z;
  text_offsetX : Z;
  text_offsetY : Z;
  text_placement : string;
  text_overflow : bool;
  text_maxAngle : Z;
  text_scale : Z
}.

(** [new ol.style.Style({fill: ..., stroke: ..., text: ...})]; an
    option the page leaves out is [None]. *)
Record Style : Type := {
  style_fill : option Fill;
  style_stroke : option Stroke;
  style_text : option Text
}.

(** A feature of a vector tile: its properties.  [feature.get(key)] is
    [undefined] for a property the feature does not have. *)
Definition feature : Type := list (string * jsval).
Definition feature_get (f : feature) (key : string) : jsval := get_prop key f.

(** [v === 'literal'] *)
Definition strict_eq_string (v : jsval) (s : string) : bool :=
  match v with
  | JsString x => String.eqb x s
  | _ => false
  end.

(** [v === number] *)
Definition strict_eq_number (v : jsval) (n : float) : bool :=
  match v with
  | JsNumber x => PrimFloat.eqb x n
  | _ => false
  end.

Definition land_fill : Style :=
  {| style_fill := Some {| fill_color := "#f2f2f2" |};
     style_stroke := None;
     style_text := None |}.

(** [baseStyleFunction]; [None] is [undefined], for which the layer
    draws nothing. *)
Definition baseStyleFunction (f : feature) : option Style :=
  let layer := feature_get f "layer" in
  if strict_eq_string layer "water" || strict_eq_string layer "waterway" then
    Some {| style_fill := Some {| fill_color := "#b3d1ff" |};
            style_stroke := Some {| stroke_color := "#b3d1ff"; stroke_width := 1 |};
            style_text := None |}
  else if strict_eq_string layer "landcover" then
    let color := "#f2f2f2" in
    Some {| style_fill := Some {| fill_color := color |};
            style_stroke := None;
            style_text := None |}
  else if strict_eq_string layer "landuse" then
    Some land_fill
  else if strict_eq_string layer "place" || strict_eq_string layer "poi" ||
          strict_eq_string layer "boundary" || strict_eq_string layer "park" then
    None
  else
    Some land_fill.

Definition boundary_stroke : Style :=
  {| style_fill := None;
     style_stroke := Some {| stroke_color := "#333333"; stroke_width := 1 |};
     style_text := None |}.

Definition label_text (name : jsval) (fontSize : string) : Style :=
  {| style_fill := None;
     style_stroke := None;
     style_text :=
       Some {| text_text := name;
               text_font := fontSize +:+ " 'Open Sans', sans-serif";
               text_fill := {| fill_color := "#000000" |};
               text_stroke := {| stroke_color := "#ffffff"; stroke_width := 3 |};
               text_textAlign := "center";
               text_textBaseline := "middle";
               text_padding := [3; 3; 3; 3];
               text_offsetX := 0;
               text_offsetY := 0;
               text_placement := "point";
               text_overflow := true;
               text_maxAngle := 45;
               text_scale := 1 |} |}.

(** [labelStyleFunction], with the value of
    [map.getView().getZoom()] as [zoom]: a number, or [None] for
    [undefined]. *)
Definition labelStyleFunction (zoom : option float) (f : feature) : option Style :=
  let layer := feature_get f "layer" in
  match zoom with
  | None => None
  | Some zoom =>
      if negb (truthy (JsNumber zoom)) then None
      else if strict_eq_string layer "boundary" then
        if strict_eq_number (feature_get f "admin_level") 4%float then
          if PrimFloat.ltb zoom 6%float then None else Some boundary_stroke
        else if strict_eq_number (feature_get f "admin_level") 2%float then
          if PrimFloat.ltb 8%float zoom then None else Some boundary_stroke
        else None
      else if negb (strict_eq_string layer "place") then None
      else
        let name := feature_get f "name:en" in
        let class_ := feature_get f "class" in
        let zooms :=
          if strict_eq_string class_ "country" then Some ("12px", 2%float, 6%float)
          else if strict_eq_string class_ "state" then Some ("12px", 6%float, 12%float)
          else None in
        match zooms with
        | None => None
        | Some (fontSize, minZoom, maxZoom) =>
            if PrimFloat.ltb zoom minZoom then None
            else if PrimFloat.ltb maxZoom zoom then None
            else Some (label_text name fontSize)
        end
  end.


(** ** A small raster and its surroundings, for running the code *)

(** A colormap with a flat lookup table. *)
Definition flat_colormap : Colormap :=
  {| cm_lookup := fun _ _ => (68, 1, 84);
     cm_bad := {| red := 0; green := 0; blue := 0; alpha := 255 |} |}.

(** Two rows of two samples; 32767 and 32766 are the product's fill
    values. *)
Definition small_raster : DatasetReader :=
  {| band1 := [[120; 32767]; [32766; 4500]];
     bounds := BoundingBox.make (-180)%float (-90)%float 180%float 90%float;
     width := 2;
     height := 2;
     crs := Some "EPSG:4326" |}.

(** The same raster with every sample a fill value. *)
Definition blank_raster : DatasetReader :=
  {| band1 := [[32767; 32767]; [32766; 32767]];
     bounds := bounds small_raster;
     width := 2;
     height := 2;
     crs := Some "EPSG:4326" |}.

Definition small_fs : filesystem :=
  {[ "data/GOSIF_2020.M06.tif" := GeoTiff small_raster ]}.

Definition blank_fs : filesystem :=
  {[ "data/GOSIF_2020.M06.tif" := GeoTiff blank_raster ]}.

(** The directory after the cell has run on [small_fs]. *)
Definition converted_fs : filesystem := snd (example_usage flat_colormap small_fs).

(** A response whose document has the bounds but no [crs] member, and
    networks that answer every request with it, with an error page, or
    not at all. *)
Definition doc_without_crs : json :=
  JObject [("bounds", JObject [("left", JFloat (-180)%float); ("bottom", JFloat (-90)%float);
                               ("right", JFloat 180%float); ("top", JFloat 90%float)])].
Definition fetch_without_crs : string -> result jserr Response :=
  fun _ => Ok {| resp_body := Doc doc_without_crs |}.
Definition fetch_error_page : string -> result jserr Response :=
  fun _ => Ok {| resp_body := NotJson |}.
Definition fetch_offline : string -> result jserr Response :=
  fun _ => Err FetchError.

(** An archive with a granule for days 1 and 3 and none for day 2, and
    a link on which the granule of day 3 does not come through. *)
Definition small_catalog : string -> Z -> option granule :=
  fun _ d =>
    if d =? 1 then Some {| g_url := "https://archive/a.nc4"; g_name := "a.nc4" |}
    else if d =? 3 then Some {| g_url := "https://archive/c.nc4"; g_name := "c.nc4" |}
    else None.
Definition flaky_transfer : string -> bool :=
  fun u => negb (String.eqb u "https://archive/c.nc4").
Definition good_transfer : string -> bool := fun _ => true.

(** A sidecar with the size of the raster and no bounds, and one
    whose bounds have no [top]. *)
Definition doc_without_bounds : json := JObject [("width", JInt 2); ("height", JInt 2)].
Definition doc_without_top : json :=
  JObject [("bounds", JObject [("left", JFloat (-180)%float); ("bottom", JFloat (-90)%float);
                               ("right", JFloat 180%float)]);
           ("crs", JString "EPSG:4326")].
Definition fetch_doc (doc : json) : string -> result jserr Response :=
  fun _ => Ok {| resp_body := Doc doc |}.

(** A map without any layer. *)
Definition empty_page : page := {| layers := []; console := [] |}.

(** Features of the vector tiles: a country's label, the border of a
    state, a lake. *)
Definition country_label : feature :=
  [("layer", JsString "place"); ("class", JsString "country"); ("name:en", JsString "Brazil")].
Definition state_border : feature :=
  [("layer", JsString "boundary"); ("admin_level", JsNumber 4%float)].
Definition lake : feature := [("layer", JsString "water")].

(** Constructors that never throw. *)
Definition no_throw_source : ImageStatic -> option jserr := fun _ => None.
Definition no_throw_layer : ImageStatic -> float -> option jserr := fun _ _ => None.

(** The page when [loadGeoPNG] is called: the base layer and the labels. *)
Definition page_before_overlay : page :=
  {| layers := [baseLayer; labelsLayer]; console := [] |}.

(** * Properties *)

(** ** Arrays *)

Section ArrayFacts.

Context {A B C : Type}.

Lemma combine_map_r (f : A -> B) (l : list A) :
  combine l (map f l) = map (fun x => (x, f x)) l.
Proof. induction l as [|x l IH]; simpl; [done | by rewrite IH]. Qed.

Lemma combine_map_map (f : A -> B) (g : A -> C) (l : list A) :
  combine (map f l) (map g l) = map (fun x => (f x, g x)) l.
Proof. induction l as [|x l IH]; simpl; [done | by rewrite IH]. Qed.

Lemma concat_map_map (f : A -> B) (ll : list (list A)) :
  concat (map (map f) ll) = map f (concat ll).
Proof.
  induction ll as [|l ll IH]; simpl; [done |].
  by rewrite IH, List.map_app.
Qed.

Lemma lookup_map (f : A -> B) (l : list A) (i : nat) :
  map f l !! i = f <$> l !! i.
Proof. exact (list_lookup_fmap f l i). Qed.

End ArrayFacts.

(** The masked array of a band: every sample paired with its mask bit. *)
Lemma masked_array_gt (data : ndarray) (t : Z) :
  masked_array data (gt data t) = map (map (fun v => (v, t <? v))) data.
Proof.
  unfold masked_array, gt.
  rewrite combine_map_r, List.map_map.
  apply List.map_ext; intros row; simpl.
  apply combine_map_r.
Qed.

Lemma compressed_masked (l : list Z) (t : Z) :
  compressed (map (fun v => (v, t <? v)) l) = filter (fun v => v <=? t) l.
Proof.
  unfold compressed.
  induction l as [|x l IH]; [done |].
  simpl. rewrite !filter_cons; simpl.
  destruct (Z.ltb_spec t x), (Z.leb_spec x t); try lia; simpl; by rewrite <- IH.
Qed.

Lemma getitem_le_masked (data : ndarray) (t : Z) :
  let valid_data := masked_array data (gt data t) in
  getitem valid_data (le valid_data t) = map (fun v => (v, false)) (valid_samples data t).
Proof.
  simpl. rewrite masked_array_gt. unfold getitem, le, valid_samples.
  rewrite !concat_map_map.
  generalize (concat data) as l; intros l.
  induction l as [|x l IH]; [done |].
  simpl. rewrite !filter_cons; simpl.
  destruct (Z.leb_spec x t) as [Hle|Hgt]; simpl; [| done].
  rewrite IH. f_equal. f_equal.
  destruct (Z.ltb_spec t x); [lia | done].
Qed.

Lemma compressed_unmasked (l : list Z) :
  compressed (map (fun v => (v, false)) l) = l.
Proof.
  unfold compressed. induction l as [|x l IH]; [done |].
  cbn [map]. rewrite filter_cons_True by done. cbn [map fst]. by rewrite IH.
Qed.

Lemma fold_min_is_min (xs : list Z) (x : Z) : is_min (fold_left Z.min xs x) (x :: xs).
Proof.
  revert x. induction xs as [|y xs IH]; intros x; simpl.
  - split; [apply list_elem_of_here |].
    intros v Hv. apply list_elem_of_singleton in Hv. lia.
  - destruct (IH (Z.min x y)) as [Hin Hle]. split.
    + apply elem_of_cons in Hin as [Heq | Hin].
      * rewrite Heq.
        destruct (Z.min_spec x y) as [[_ ->] | [_ ->]];
          [apply list_elem_of_here | apply list_elem_of_further, list_elem_of_here].
      * by do 2 apply list_elem_of_further.
    + intros v Hv.
      assert (Hm : fold_left Z.min xs (Z.min x y) <= Z.min x y) by (apply Hle, list_elem_of_here).
      apply elem_of_cons in Hv as [-> | Hv]; [lia |].
      apply elem_of_cons in Hv as [-> | Hv]; [lia |].
      by apply Hle, list_elem_of_further.
Qed.

Lemma fold_max_is_max (xs : list Z) (x : Z) : is_max (fold_left Z.max xs x) (x :: xs).
Proof.
  revert x. induction xs as [|y xs IH]; intros x; simpl.
  - split; [apply list_elem_of_here |].
    intros v Hv. apply list_elem_of_singleton in Hv. lia.
  - destruct (IH (Z.max x y)) as [Hin Hle]. split.
    + apply elem_of_cons in Hin as [Heq | Hin].
      * rewrite Heq.
        destruct (Z.max_spec x y) as [[_ ->] | [_ ->]];
          [apply list_elem_of_further, list_elem_of_here | apply list_elem_of_here].
      * by do 2 apply list_elem_of_further.
    + intros v Hv.
      assert (Hm : Z.max x y <= fold_left Z.max xs (Z.max x y)) by (apply Hle, list_elem_of_here).
      apply elem_of_cons in Hv as [-> | Hv]; [lia |].
      apply elem_of_cons in Hv as [-> | Hv]; [lia |].
      by apply Hle, list_elem_of_further.
Qed.

(** ** The colour scale *)

Lemma valid_samples_spec (data : ndarray) (t v : Z) :
  v ∈ valid_samples data t <-> v ∈ concat data /\ v <= t.
Proof.
  unfold valid_samples. rewrite list_elem_of_filter.
  destruct (Z.leb_spec v t); simpl; intuition lia.
Qed.

Lemma nanmin_valid_data (data : ndarray) (t : Z) :
  nanmin (concat (masked_array data (gt data t))) =
  match concat data with
  | [] => Err ValueError
  | _ :: _ =>
      match valid_samples data t with
      | [] => Ok None
      | x :: xs => Ok (Some (fold_left Z.min xs x))
      end
  end.
Proof.
  rewrite masked_array_gt, concat_map_map. unfold nanmin, reduce, valid_samples.
  rewrite compressed_masked.
  by destruct (concat data).
Qed.

Lemma nanmax_selection (data : ndarray) (t : Z) :
  let valid_data := masked_array data (gt data t) in
  nanmax (getitem valid_data (le valid_data t)) =
  match valid_samples data t with
  | [] => Err ValueError
  | x :: xs => Ok (Some (fold_left Z.max xs x))
  end.
Proof.
  cbv zeta. rewrite getitem_le_masked. unfold nanmax, reduce.
  rewrite compressed_unmasked.
  by destruct (valid_samples data t).
Qed.

Lemma color_scale_some (data : ndarray) (t x : Z) (xs : list Z) :
  valid_samples data t = x :: xs ->
  color_scale data t =
  Ok {| vmin := Some (fold_left Z.min xs x); vmax := Some (fold_left Z.max xs x) |}.
Proof.
  intros Hv. unfold color_scale.
  rewrite nanmin_valid_data, (nanmax_selection data t), Hv.
  destruct (concat data) eqn:Hc; [| done].
  unfold valid_samples in Hv. by rewrite Hc in Hv.
Qed.

Lemma color_scale_none (data : ndarray) (t : Z) :
  valid_samples data t = [] -> color_scale data t = Err ValueError.
Proof.
  intros Hv. unfold color_scale.
  rewrite nanmin_valid_data, (nanmax_selection data t), Hv.
  by destruct (concat data).
Qed.

Lemma all_masked_no_valid (data : ndarray) (t : Z) :
  (forall v, v ∈ concat data -> t < v) -> valid_samples data t = [].
Proof.
  intros Hall. destruct (valid_samples data t) as [|x xs] eqn:Hv; [done |].
  assert (Hx : x ∈ valid_samples data t) by (rewrite Hv; set_solver).
  apply valid_samples_spec in Hx as [Hx Hle]. apply Hall in Hx. lia.
Qed.

Lemma some_valid (data : ndarray) (t : Z) :
  (exists v, v ∈ concat data /\ v <= t) -> exists x xs, valid_samples data t = x :: xs.
Proof.
  intros (v & Hv & Hle).
  assert (Hin : v ∈ valid_samples data t) by (by apply valid_samples_spec).
  destruct (valid_samples data t) as [|x xs]; [set_solver | eauto].
Qed.

(** ** The image *)

Lemma imshow_masked (data : ndarray) (t : Z) (cmap : Colormap) (norm : Normalize) :
  imshow (masked_array data (gt data t)) cmap norm =
  map (map (fun v => if t <? v then cm_bad cmap
                     else let '(r, g, b) := cm_lookup cmap norm v in
                          {| red := r; green := g; blue := b; alpha := 255 |})) data.
Proof.
  rewrite masked_array_gt. unfold imshow. rewrite List.map_map.
  apply List.map_ext; intros row. by rewrite List.map_map.
Qed.

Lemma imshow_masked_pixel (data : list (list Z)) (t : Z) (cmap : Colormap) (norm : Normalize)
    (i j : nat) (row : list Z) (v : Z) :
  data !! i = Some row -> row !! j = Some v -> t < v ->
  exists prow, imshow (masked_array data (gt data t)) cmap norm !! i = Some prow /\
               prow !! j = Some (cm_bad cmap).
Proof.
  intros Hi Hj Hv. rewrite imshow_masked.
  eexists. rewrite lookup_map, Hi. split; [reflexivity |].
  rewrite lookup_map, Hj. simpl.
  by destruct (Z.ltb_spec t v); [| lia].
Qed.

(** ** Runs of the converter *)

Section ConverterFacts.

Variable viridis : Colormap.
Variables geotiff_path output_png_path output_metadata_path : string.
Variable threshold : option Z.

Let t : Z := default default_threshold threshold.

Lemma convert_run (fs : filesystem) :
  convert_geotiff_to_png viridis geotiff_path output_png_path output_metadata_path threshold fs =
  match fs !! geotiff_path with
  | Some (GeoTiff src) =>
      match crs src with
      | None => (Err AttributeError, fs)
      | Some c =>
          match color_scale (band1 src) t with
          | Err e => (Err e, fs)
          | Ok norm =>
              (Ok tt,
               <[output_metadata_path := JsonFile (sidecar (bounds src) (width src) (height src) c)]>
                 (<[output_png_path := PngFile (saved_figure viridis t src norm)]> fs))
          end
      end
  | _ => (Err RasterioIOError, fs)
  end.
Proof.
  unfold convert_geotiff_to_png, rasterio_open, bind, lift. fold t.
  destruct (fs !! geotiff_path) as [[src | fig | doc] |]; try reflexivity.
  destruct (crs src) as [c |]; simpl; [| reflexivity].
  destruct (color_scale (band1 src) t) as [norm | e]; reflexivity.
Qed.

Lemma convert_ok_inv (fs fs' : filesystem) (src : DatasetReader) :
  fs !! geotiff_path = Some (GeoTiff src) ->
  convert_geotiff_to_png viridis geotiff_path output_png_path output_metadata_path threshold fs
    = (Ok tt, fs') ->
  exists c norm,
    crs src = Some c /\
    color_scale (band1 src) t = Ok norm /\
    fs' = <[output_metadata_path := JsonFile (sidecar (bounds src) (width src) (height src) c)]>
            (<[output_png_path := PngFile (saved_figure viridis t src norm)]> fs).
Proof.
  intros Hsrc. rewrite convert_run, Hsrc.
  destruct (crs src) as [c |]; [| discriminate].
  destruct (color_scale (band1 src) t) as [norm | e]; [| discriminate].
  intros [= <-]. eauto.
Qed.

End ConverterFacts.

(** ** Runs of the viewer *)

Section ViewerFacts.

Variable fetch : string -> result jserr Response.
Variable ImageStatic_throws : ImageStatic -> option jserr.
Variable Image_throws : ImageStatic -> float -> option jserr.

Variables pngUrl metadataUrl : string.

Abbreviation run_try := (loadGeoPNG_try fetch ImageStatic_throws Image_throws pngUrl metadataUrl).
Abbreviation run := (loadGeoPNG fetch ImageStatic_throws Image_throws pngUrl metadataUrl).

(** The [try] block either fails with the page as it was, or ends with
    the overlay in place, built from the four members it read. *)
Lemma loadGeoPNG_try_cases (st : page) :
  (exists e, run_try st = (Err e, st)) \/
  (exists resp metadata bounds left bottom right top crs,
     fetch metadataUrl = Ok resp /\
     Response_json resp = Ok metadata /\
     js_get metadata "bounds" = Ok bounds /\
     js_get bounds "left" = Ok left /\
     js_get bounds "bottom" = Ok bottom /\
     js_get bounds "right" = Ok right /\
     js_get bounds "top" = Ok top /\
     js_get metadata "crs" = Ok crs /\
     run_try st =
       (Ok tt, overlay_placed st {| url := pngUrl;
                                    imageExtent := JsArray [left; bottom; right; top];
                                    projection := js_or crs (JsString "EPSG:4326") |})).
Proof.
  unfold loadGeoPNG_try, bind, lift.
  destruct (fetch metadataUrl) as [resp | e] eqn:Hf; [| eauto].
  destruct (Response_json resp) as [metadata | e] eqn:Hj; [| eauto].
  destruct (js_get metadata "bounds") as [bounds | e] eqn:Hb; [| eauto].
  destruct (js_get bounds "left") as [l | e] eqn:Hl; [| eauto].
  destruct (js_get bounds "bottom") as [b | e] eqn:Hbo; [| eauto].
  destruct (js_get bounds "right") as [r | e] eqn:Hr; [| eauto].
  destruct (js_get bounds "top") as [tp | e] eqn:Ht; [| eauto].
  destruct (js_get metadata "crs") as [c | e] eqn:Hc; [| eauto].
  unfold new_ImageStatic.
  destruct (ImageStatic_throws _) as [e |]; [eauto |].
  unfold new_Image.
  destruct (Image_throws _ _) as [e |]; [eauto |].
  unfold insertAt.
  destruct (length (layers st) <? 1)%nat; [eauto |].
  right. exists resp, metadata, bounds, l, b, r, tp, c. by repeat split.
Qed.

(** A failure of the [try] block leaves the page as it was. *)
Lemma loadGeoPNG_try_fails (st st_e : page) (e : jserr) :
  run_try st = (Err e, st_e) -> st_e = st.
Proof.
  destruct (loadGeoPNG_try_cases st) as [(e' & ->) | (? & ? & ? & ? & ? & ? & ? & ? & H)].
  - by intros [= _ <-].
  - destruct H as (_ & _ & _ & _ & _ & _ & _ & _ & ->). discriminate.
Qed.

Lemma loadGeoPNG_on_failure (st st_e : page) (e : jserr) :
  run_try st = (Err e, st_e) -> run st = (Ok tt, failure_logged st e).
Proof.
  intros H. pose proof (loadGeoPNG_try_fails _ _ _ H) as ->.
  unfold loadGeoPNG, try_catch. by rewrite H.
Qed.

Lemma loadGeoPNG_on_success (st st' : page) :
  run_try st = (Ok tt, st') -> run st = (Ok tt, st').
Proof. intros H. unfold loadGeoPNG, try_catch. by rewrite H. Qed.

Lemma placed_differs (st : page) (source : ImageStatic) :
  layers (overlay_placed st source) <> layers st.
Proof.
  simpl. intros H. apply (f_equal length) in H.
  rewrite length_app in H. simpl in H.
  pose proof (take_drop 1 (layers st)) as Htd. apply (f_equal length) in Htd.
  rewrite length_app in Htd. lia.
Qed.

End ViewerFacts.

(** * The converter's claims *)

(** C1. Masking: when the converter succeeds, the colour scale it used
    runs from the least to the greatest sample that is at most the
    threshold, the saved image was drawn with that scale, and every
    sample above the threshold is outside the scale's samples and is
    drawn with opacity 0. *)
Theorem masking_correct (viridis : Colormap)
    (geotiff_path output_png_path output_metadata_path : string)
    (threshold : option Z) (src : DatasetReader) (fs fs' : filesystem) :
  fs !! geotiff_path = Some (GeoTiff src) ->
  output_png_path <> output_metadata_path ->
  convert_geotiff_to_png viridis geotiff_path output_png_path output_metadata_path threshold fs
    = (Ok tt, fs') ->
  let t := default default_threshold threshold in
  let data : list (list Z) := band1 src in
  exists lo hi fig,
    color_scale data t = Ok {| vmin := Some lo; vmax := Some hi |} /\
    is_min lo (valid_samples data t) /\
    is_max hi (valid_samples data t) /\
    (forall v, v ∈ valid_samples data t <-> v ∈ concat data /\ v <= t) /\
    fs' !! output_png_path = Some (PngFile fig) /\
    fig_image fig = imshow (masked_array data (gt data t)) (set_bad viridis 0)
                      {| vmin := Some lo; vmax := Some hi |} /\
    forall i j row v,
      data !! i = Some row -> row !! j = Some v -> t < v ->
      (v ∉ valid_samples data t) /\
      exists prow px, fig_image fig !! i = Some prow /\ prow !! j = Some px /\ alpha px = 0.
Proof.
  intros Hsrc Hne Hrun t data.
  destruct (convert_ok_inv _ _ _ _ _ _ _ _ Hsrc Hrun) as (c & norm & Hcrs & Hscale & ->).
  fold t in Hscale. fold data in Hscale.
  destruct (valid_samples data t) as [|x xs] eqn:Hvalid.
  { rewrite (color_scale_none _ _ Hvalid) in Hscale. discriminate. }
  rewrite (color_scale_some _ _ _ _ Hvalid) in Hscale. injection Hscale as <-.
  exists (fold_left Z.min xs x), (fold_left Z.max xs x).
  eexists. split; [exact (color_scale_some _ _ _ _ Hvalid) |].
  split; [apply fold_min_is_min |]. split; [apply fold_max_is_max |].
  split; [intros v; rewrite <- Hvalid; apply valid_samples_spec |].
  split; [by rewrite lookup_insert_ne, lookup_insert_eq |].
  split; [reflexivity |].
  intros i j row v Hi Hj Hv. split.
  - rewrite <- Hvalid. rewrite valid_samples_spec. lia.
  - destruct (imshow_masked_pixel data t (set_bad viridis 0)
                {| vmin := Some (fold_left Z.min xs x); vmax := Some (fold_left Z.max xs x) |}
                i j row v Hi Hj Hv) as (prow & Hrow & Hpx).
    exists prow, (cm_bad (set_bad viridis 0)). by repeat split.
Qed.

(** The small raster: the scale runs from 120 to 4500, and the sample
    32767 in row 0, column 1 is drawn with opacity 0. *)
Lemma masking_correct_witness :
  exists lo hi fig,
    color_scale (band1 small_raster) 32760 = Ok {| vmin := Some lo; vmax := Some hi |} /\
    is_min lo (valid_samples (band1 small_raster) 32760) /\
    is_max hi (valid_samples (band1 small_raster) 32760) /\
    converted_fs !! "data/GOSIF_2020.M06.png" = Some (PngFile fig) /\
    exists prow px, fig_image fig !! 0%nat = Some prow /\ prow !! 1%nat = Some px /\ alpha px = 0.
Proof.
  destruct (masking_correct flat_colormap
              "data/GOSIF_2020.M06.tif" "data/GOSIF_2020.M06.png"
              "data/GOSIF_2020.M06_metadata.json" None small_raster small_fs converted_fs)
    as (lo & hi & fig & Hscale & Hmin & Hmax & _ & Hpng & _ & Hpix).
  - reflexivity.
  - discriminate.
  - vm_compute. reflexivity.
  - exists lo, hi, fig. repeat (split; [assumption |]).
    destruct (Hpix 0%nat 1%nat [120; 32767] 32767) as (_ & Hpx); [reflexivity .. | exact Hpx].
Defined.

(** The colour scale and the image of the small raster. *)
Example color_scale_small :
  color_scale (band1 small_raster) 32760 = Ok {| vmin := Some 120; vmax := Some 4500 |}.
Proof. reflexivity. Qed.

Example image_small :
  imshow (masked_array (band1 small_raster) (gt (band1 small_raster) 32760))
    (set_bad flat_colormap 0) {| vmin := Some 120; vmax := Some 4500 |} =
  [[{| red := 68; green := 1; blue := 84; alpha := 255 |};
    {| red := 0; green := 0; blue := 0; alpha := 0 |}];
   [{| red := 0; green := 0; blue := 0; alpha := 0 |};
    {| red := 68; green := 1; blue := 84; alpha := 255 |}]].
Proof. reflexivity. Qed.

(** The figure's width in inches times its resolution is, in doubles,
    not always the raster's width: for 13 samples it falls just
    short of 13. *)
Example figure_width_13 :
  PrimFloat.ltb (PrimFloat.mul (PrimFloat.div (float_of_Z 13) (float_of_Z 360)) (float_of_Z 360))
                (float_of_Z 13) = true.
Proof. reflexivity. Qed.

(** C8. The threshold defaults to 32760: leaving the parameter out is
    the same as passing 32760, and the cell's example call leaves it
    out. *)
Theorem threshold_default (viridis : Colormap) :
  default_threshold = 32760 /\
  (forall geotiff_path output_png_path output_metadata_path fs,
     convert_geotiff_to_png viridis geotiff_path output_png_path output_metadata_path None fs =
     convert_geotiff_to_png viridis geotiff_path output_png_path output_metadata_path
       (Some 32760) fs) /\
  (forall fs,
     example_usage viridis fs =
     convert_geotiff_to_png viridis "data/GOSIF_2020.M06.tif" "data/GOSIF_2020.M06.png"
       "data/GOSIF_2020.M06_metadata.json" (Some 32760) fs).
Proof. repeat split. Qed.

(** Under the default, 32760 is still a valid sample and 32761 is not. *)
Example default_threshold_boundary :
  valid_samples [[32759; 32760; 32761]] (default default_threshold None) = [32759; 32760].
Proof. reflexivity. Qed.

(** C9. The converter needs a sample at most the threshold.  When every
    sample is above it, the maximum over the selection raises
    [ValueError] and the converter ends in an error with no file
    written; when some sample is at most the threshold, the maximum is
    computed, and the converter succeeds on a raster that has a
    coordinate reference system. *)
Theorem vmax_requires_valid_pixel (viridis : Colormap)
    (geotiff_path output_png_path output_metadata_path : string)
    (threshold : option Z) (src : DatasetReader) (fs : filesystem) :
  fs !! geotiff_path = Some (GeoTiff src) ->
  let t := default default_threshold threshold in
  let data := band1 src in
  let valid_data := masked_array data (gt data t) in
  let run := convert_geotiff_to_png viridis geotiff_path output_png_path
               output_metadata_path threshold fs in
  ((forall v, v ∈ concat data -> t < v) ->
     nanmax (getitem valid_data (le valid_data t)) = Err ValueError /\
     run = (Err (match crs src with Some _ => ValueError | None => AttributeError end), fs)) /\
  ((exists v, v ∈ concat data /\ v <= t) ->
     (exists hi, nanmax (getitem valid_data (le valid_data t)) = Ok (Some hi)) /\
     (forall c, crs src = Some c -> exists fs', run = (Ok tt, fs'))).
Proof.
  intros Hsrc t data valid_data run. split.
  - intros Hall. pose proof (all_masked_no_valid _ _ Hall) as Hvalid.
    split.
    + subst valid_data. rewrite (nanmax_selection data t). by rewrite Hvalid.
    + subst run. rewrite convert_run, Hsrc. fold t. fold data.
      destruct (crs src); [| done]. by rewrite (color_scale_none _ _ Hvalid).
  - intros Hex. destruct (some_valid _ _ Hex) as (x & xs & Hvalid).
    split.
    + subst valid_data. rewrite (nanmax_selection data t), Hvalid. eauto.
    + intros c Hc. subst run. rewrite convert_run, Hsrc, Hc. fold t. fold data.
      rewrite (color_scale_some _ _ _ _ Hvalid). eauto.
Qed.

(** The blank raster makes the converter raise [ValueError] and leaves
    the directory alone; the small raster converts. *)
Lemma vmax_requires_valid_pixel_witness :
  example_usage flat_colormap blank_fs = (Err ValueError, blank_fs) /\
  exists fs', example_usage flat_colormap small_fs = (Ok tt, fs').
Proof.
  split.
  - refine (proj2 (proj1 (vmax_requires_valid_pixel flat_colormap
                            "data/GOSIF_2020.M06.tif" "data/GOSIF_2020.M06.png"
                            "data/GOSIF_2020.M06_metadata.json" None blank_raster blank_fs _) _)).
    + reflexivity.
    + intros v Hv. vm_compute in Hv.
      repeat (apply elem_of_cons in Hv as [-> | Hv]; [reflexivity |]).
      by apply elem_of_nil in Hv.
  - refine (proj2 (proj2 (vmax_requires_valid_pixel flat_colormap
                            "data/GOSIF_2020.M06.tif" "data/GOSIF_2020.M06.png"
                            "data/GOSIF_2020.M06_metadata.json" None small_raster small_fs _) _)
              "EPSG:4326" _).
    + reflexivity.
    + exists 120. split; [apply list_elem_of_here | done].
    + reflexivity.
Defined.

(** * The sidecar between the converter and the viewer *)

Lemma JSON_parse_sidecar (b : BoundingBox.t) (w h : Z) (c : string) :
  JSON_parse (sidecar b w h c) =
  if bounds_finite b then Some (parsed_sidecar b w h c) else None.
Proof.
  unfold sidecar, bounds_finite, parsed_sidecar. cbn -[PrimFloat.is_finite float_of_Z].
  destruct (PrimFloat.is_finite (BoundingBox.left b)); [| reflexivity].
  destruct (PrimFloat.is_finite (BoundingBox.bottom b)); [| reflexivity].
  destruct (PrimFloat.is_finite (BoundingBox.right b)); [| reflexivity].
  destruct (PrimFloat.is_finite (BoundingBox.top b)); reflexivity.
Qed.

Lemma Response_json_sidecar (b : BoundingBox.t) (w h : Z) (c : string) :
  Response_json {| resp_body := Doc (sidecar b w h c) |} =
  if bounds_finite b then Ok (parsed_sidecar b w h c) else Err SyntaxError.
Proof.
  unfold Response_json; cbn [resp_body]. rewrite JSON_parse_sidecar.
  by destruct (bounds_finite b).
Qed.

Lemma serve_written (fs : filesystem) (path : string) (doc : json) :
  serve (<[path := JsonFile doc]> fs) path = Ok {| resp_body := Doc doc |}.
Proof. unfold serve. by rewrite lookup_insert_eq. Qed.

(** A sidecar whose bounds are not finite is not JSON for the page. *)
Example JSON_parse_nan :
  JSON_parse (sidecar (BoundingBox.make PrimFloat.nan 0%float 1%float 1%float) 2 2 "EPSG:4326")
  = None.
Proof. reflexivity. Qed.



(** C2. Round trip of the bounds: after the converter has written the
    sidecar, a viewer that fetches it from the same directory either
    places no overlay or places it with the extent [left, bottom,
    right, top] of the raster's bounds; and it does place it when the
    bounds are finite doubles, the library's constructors do not throw
    and the map has its base layer. *)
Theorem bounds_roundtrip (viridis : Colormap)
    (ImageStatic_throws : ImageStatic -> option jserr)
    (Image_throws : ImageStatic -> float -> option jserr)
    (geotiff_path output_png_path output_metadata_path pngUrl : string)
    (threshold : option Z) (src : DatasetReader) (fs fs' : filesystem) (st : page) :
  fs !! geotiff_path = Some (GeoTiff src) ->
  convert_geotiff_to_png viridis geotiff_path output_png_path output_metadata_path threshold fs
    = (Ok tt, fs') ->
  let after := snd (loadGeoPNG (serve fs') ImageStatic_throws Image_throws
                      pngUrl output_metadata_path st) in
  let shown proj := overlay_placed st {| url := pngUrl;
                                         imageExtent := extent_of_bounds (bounds src);
                                         projection := proj |} in
  (layers after = layers st \/ exists proj, after = shown proj) /\
  (bounds_finite (bounds src) = true ->
   (forall options, ImageStatic_throws options = None) ->
   (forall source opacity, Image_throws source opacity = None) ->
   (1 <= length (layers st))%nat ->
   exists proj, after = shown proj).
Proof.
  intros Hsrc Hrun after shown.
  destruct (convert_ok_inv _ _ _ _ _ _ _ _ Hsrc Hrun) as (c & norm & Hcrs & _ & ->).
  set (fs' := <[output_metadata_path := _]> _) in *.
  assert (Hserve : serve fs' output_metadata_path =
                   Ok {| resp_body := Doc (sidecar (bounds src) (width src) (height src) c) |})
    by apply serve_written.
  destruct (loadGeoPNG_try_cases (serve fs') ImageStatic_throws Image_throws
              pngUrl output_metadata_path st)
    as [(e & Hfail) | (resp & metadata & bnds & l & b & rt & tp & cr & H)].
  - (* the viewer failed *)
    pose proof (loadGeoPNG_on_failure _ _ _ _ _ _ _ _ Hfail) as Hload.
    split.
    + left. subst after. by rewrite Hload.
    + intros Hfin HIS HI Hlen. exfalso.
      revert Hfail. unfold loadGeoPNG_try, bind, lift.
      rewrite Hserve, Response_json_sidecar, Hfin. cbn -[float_of_Z].
      unfold new_ImageStatic. rewrite HIS. unfold new_Image. rewrite HI.
      unfold insertAt. destruct (Nat.ltb_spec (length (layers st)) 1); [lia | discriminate].
  - (* the viewer placed the overlay *)
    destruct H as (Hf & Hj & Hb & Hl & Hbo & Hr & Ht & _ & Hok).
    pose proof (loadGeoPNG_on_success _ _ _ _ _ _ _ Hok) as Hload.
    rewrite Hserve in Hf. injection Hf as <-.
    rewrite Response_json_sidecar in Hj.
    destruct (bounds_finite (bounds src)); [| discriminate].
    injection Hj as <-.
    cbn -[float_of_Z] in Hb. injection Hb as <-.
    cbn in Hl, Hbo, Hr, Ht.
    injection Hl as <-. injection Hbo as <-. injection Hr as <-. injection Ht as <-.
    assert (Hshown : exists proj, after = shown proj).
    { eexists. subst after shown. rewrite Hload. reflexivity. }
    split; [by right | by intros].
Qed.

(** The small raster, converted and then loaded by the page: the
    overlay sits between the base layer and the labels, stretched over
    [-180, -90, 180, 90]. *)
Lemma bounds_roundtrip_witness :
  exists proj,
    snd (loadGeoPNG (serve converted_fs) no_throw_source no_throw_layer
           pngFile metadataFile page_before_overlay) =
    {| layers := [baseLayer;
                  Image {| url := "data/GOSIF_2020.M06.png";
                           imageExtent := JsArray [JsNumber (-180)%float; JsNumber (-90)%float;
                                                   JsNumber 180%float; JsNumber 90%float];
                           projection := proj |} opacity_0_9;
                  labelsLayer];
       console := [] |}.
Proof.
  refine (proj2 (bounds_roundtrip flat_colormap no_throw_source no_throw_layer
                   "data/GOSIF_2020.M06.tif" "data/GOSIF_2020.M06.png"
                   "data/GOSIF_2020.M06_metadata.json" pngFile None
                   small_raster small_fs converted_fs page_before_overlay _ _) _ _ _ _).
  - reflexivity.
  - vm_compute. reflexivity.
  - reflexivity.
  - reflexivity.
  - reflexivity.
  - simpl. lia.
Defined.

(** * The viewer's claims *)

Lemma get_prop_absent (key : string) (props : list (string * jsval)) :
  (forall v, (key, v) ∉ props) -> get_prop key props = JsUndefined.
Proof.
  induction props as [|[k x] rest IH]; intros Habs; simpl; [done |].
  destruct (String.eqb_spec k key) as [-> | Hne].
  - destruct (Habs x). apply list_elem_of_here.
  - apply IH. intros v Hv. apply (Habs v). by apply list_elem_of_further.
Qed.

Lemma js_get_defined (v : jsval) (key : string) :
  v <> JsUndefined -> v <> JsNull -> exists x, js_get v key = Ok x.
Proof. destruct v; simpl; intros; eauto; congruence. Qed.

(** C4. The projection of the overlay is the sidecar's [crs] member
    when that member is truthy, and the string ['EPSG:4326'] when it
    is falsy, in particular when the object has no such member. *)
Theorem crs_default (fetch : string -> result jserr Response)
    (ImageStatic_throws : ImageStatic -> option jserr)
    (Image_throws : ImageStatic -> float -> option jserr)
    (pngUrl metadataUrl : string) (st : page)
    (resp : Response) (props : list (string * jsval)) :
  fetch metadataUrl = Ok resp ->
  Response_json resp = Ok (JsObject props) ->
  get_prop "bounds" props <> JsUndefined ->
  get_prop "bounds" props <> JsNull ->
  (forall options, ImageStatic_throws options = None) ->
  (forall source opacity, Image_throws source opacity = None) ->
  (1 <= length (layers st))%nat ->
  let crs := get_prop "crs" props in
  (exists extent proj,
     loadGeoPNG fetch ImageStatic_throws Image_throws pngUrl metadataUrl st =
     (Ok tt, overlay_placed st {| url := pngUrl; imageExtent := extent; projection := proj |}) /\
     ((forall v, ("crs", v) ∉ props) -> proj = JsString "EPSG:4326") /\
     (truthy crs = false -> proj = JsString "EPSG:4326") /\
     (truthy crs = true -> proj = crs)).
Proof.
  intros Hf Hj Hu Hn HIS HI Hlen crs.
  destruct (js_get_defined _ "left" Hu Hn) as (l & Hl).
  destruct (js_get_defined _ "bottom" Hu Hn) as (b & Hb).
  destruct (js_get_defined _ "right" Hu Hn) as (r & Hr).
  destruct (js_get_defined _ "top" Hu Hn) as (tp & Ht).
  exists (JsArray [l; b; r; tp]), (js_or crs (JsString "EPSG:4326")).
  split; [| split; [| split]].
  - unfold loadGeoPNG, try_catch, loadGeoPNG_try, bind, lift.
    rewrite Hf, Hj. cbn [js_get]. cbn [js_get] in Hl, Hb, Hr, Ht.
    rewrite Hl, Hb, Hr, Ht.
    unfold new_ImageStatic. rewrite HIS. unfold new_Image. rewrite HI.
    unfold insertAt. by destruct (Nat.ltb_spec (length (layers st)) 1); [lia |].
  - intros Habs. subst crs. by rewrite (get_prop_absent _ _ Habs).
  - intros Hfalsy. unfold js_or. by rewrite Hfalsy.
  - intros Htruthy. unfold js_or. by rewrite Htruthy.
Qed.

(** A sidecar without a [crs] member: the overlay is placed with the
    projection ['EPSG:4326']. *)
Lemma crs_default_witness :
  exists extent,
    loadGeoPNG fetch_without_crs no_throw_source no_throw_layer
      pngFile metadataFile page_before_overlay =
    (Ok tt, overlay_placed page_before_overlay
              {| url := pngFile; imageExtent := extent;
                 projection := JsString "EPSG:4326" |}).
Proof.
  destruct (crs_default fetch_without_crs no_throw_source no_throw_layer
              pngFile metadataFile page_before_overlay
              {| resp_body := Doc doc_without_crs |}
              [("bounds", JsObject [("left", JsNumber (-180)%float);
                                    ("bottom", JsNumber (-90)%float);
                                    ("right", JsNumber 180%float);
                                    ("top", JsNumber 90%float)])])
    as (extent & proj & Hload & Habsent & _ & _).
  - reflexivity.
  - reflexivity.
  - discriminate.
  - discriminate.
  - reflexivity.
  - reflexivity.
  - simpl. lia.
  - exists extent. rewrite Hload, Habsent; [reflexivity |].
    intros v Hv. apply list_elem_of_singleton in Hv. discriminate.
Defined.

(** C5. When the fetch of the metadata fails, [loadGeoPNG] returns
    normally, the layers are what they were, and the console has one
    more line, carrying the error. *)
Theorem fetch_failure_logged (fetch : string -> result jserr Response)
    (ImageStatic_throws : ImageStatic -> option jserr)
    (Image_throws : ImageStatic -> float -> option jserr)
    (pngUrl metadataUrl : string) (st : page) (e : jserr) :
  fetch metadataUrl = Err e ->
  loadGeoPNG fetch ImageStatic_throws Image_throws pngUrl metadataUrl st =
  (Ok tt, {| layers := layers st;
             console := console st ++ [("Error loading colormapped PNG:", e)] |}).
Proof.
  intros Hf. unfold loadGeoPNG, try_catch, loadGeoPNG_try, bind, lift.
  by rewrite Hf.
Qed.

Lemma fetch_failure_logged_witness :
  loadGeoPNG fetch_offline no_throw_source no_throw_layer pngFile metadataFile
    page_before_overlay =
  (Ok tt, {| layers := [baseLayer; labelsLayer];
             console := [("Error loading colormapped PNG:", FetchError)] |}).
Proof.
  exact (fetch_failure_logged fetch_offline no_throw_source no_throw_layer
           pngFile metadataFile page_before_overlay FetchError eq_refl).
Defined.

(** C10. [loadGeoPNG] never throws to its caller, and whenever its
    [try] block fails, wherever it fails, the layers are what they
    were and the error is on the console.  The block fails when the
    fetch is rejected, when the body is not JSON, and when a
    constructor of the library throws. *)
Theorem failure_leaves_layers (fetch : string -> result jserr Response)
    (ImageStatic_throws : ImageStatic -> option jserr)
    (Image_throws : ImageStatic -> float -> option jserr)
    (pngUrl metadataUrl : string) (st : page) :
  let try_block := loadGeoPNG_try fetch ImageStatic_throws Image_throws pngUrl metadataUrl in
  let run := loadGeoPNG fetch ImageStatic_throws Image_throws pngUrl metadataUrl in
  fst (run st) = Ok tt /\
  (forall e st_e, try_block st = (Err e, st_e) ->
     st_e = st /\
     run st = (Ok tt, failure_logged st e) /\
     layers (snd (run st)) = layers st) /\
  (forall e, fetch metadataUrl = Err e -> try_block st = (Err e, st)) /\
  (forall resp e, fetch metadataUrl = Ok resp -> Response_json resp = Err e ->
     try_block st = (Err e, st)) /\
  ((forall options, ImageStatic_throws options <> None) -> exists e, try_block st = (Err e, st)) /\
  ((forall source opacity, Image_throws source opacity <> None) ->
     exists e, try_block st = (Err e, st)).
Proof.
  intros try_block run.
  assert (Hcases := loadGeoPNG_try_cases fetch ImageStatic_throws Image_throws
                      pngUrl metadataUrl st).
  split; [| split; [| split; [| split; [| split]]]].
  - destruct Hcases as [(e & Hfail) | (? & ? & ? & ? & ? & ? & ? & ? & H)].
    + subst run. by rewrite (loadGeoPNG_on_failure _ _ _ _ _ _ _ _ Hfail).
    + destruct H as (_ & _ & _ & _ & _ & _ & _ & _ & Hok).
      subst run. by rewrite (loadGeoPNG_on_success _ _ _ _ _ _ _ Hok).
  - intros e st_e Hfail.
    pose proof (loadGeoPNG_try_fails _ _ _ _ _ _ _ _ Hfail) as ->.
    pose proof (loadGeoPNG_on_failure _ _ _ _ _ _ _ _ Hfail) as Hrun.
    subst run. by rewrite Hrun.
  - intros e Hf. subst try_block. unfold loadGeoPNG_try, bind, lift. by rewrite Hf.
  - intros resp e Hf Hj. subst try_block. unfold loadGeoPNG_try, bind, lift.
    by rewrite Hf, Hj.
  - intros Hthrows.
    destruct Hcases as [Hfail | (? & ? & ? & l & b & r & tp & c & H)]; [exact Hfail |].
    destruct H as (Hf & Hj & Hb & Hl & Hbo & Hr & Ht & Hc & Hok). exfalso.
    revert Hok. unfold loadGeoPNG_try, bind, lift.
    rewrite Hf, Hj, Hb, Hl, Hbo, Hr, Ht, Hc. unfold new_ImageStatic.
    destruct (ImageStatic_throws _) eqn:HIS; [discriminate | by apply Hthrows in HIS].
  - intros Hthrows.
    destruct Hcases as [Hfail | (? & ? & ? & l & b & r & tp & c & H)]; [exact Hfail |].
    destruct H as (Hf & Hj & Hb & Hl & Hbo & Hr & Ht & Hc & Hok). exfalso.
    revert Hok. unfold loadGeoPNG_try, bind, lift.
    rewrite Hf, Hj, Hb, Hl, Hbo, Hr, Ht, Hc. unfold new_ImageStatic.
    destruct (ImageStatic_throws _); [discriminate |]. unfold new_Image.
    destruct (Image_throws _ _) eqn:HI; [discriminate | by apply Hthrows in HI].
Qed.

(** An error page in place of the sidecar: the parse fails inside the
    [try] block, the layers stay, the error is logged. *)
Lemma failure_leaves_layers_witness :
  loadGeoPNG fetch_error_page no_throw_source no_throw_layer pngFile metadataFile
    page_before_overlay =
  (Ok tt, {| layers := [baseLayer; labelsLayer];
             console := [("Error loading colormapped PNG:", SyntaxError)] |}).
Proof.
  refine (proj1 (proj2 (proj1 (proj2
            (failure_leaves_layers fetch_error_page no_throw_source no_throw_layer
               pngFile metadataFile page_before_overlay))
            SyntaxError page_before_overlay _))).
  reflexivity.
Defined.

(** * The archive client's claim *)

Section DownloaderFacts.

Variable catalog : string -> Z -> option granule.
Variables dataset outpath : string.

Abbreviation invariant := (run_invariant catalog dataset outpath).

Lemma download_date_invariant (transfer : string -> bool) (d : Z)
    (acc : dl_result) (st : dl_state) :
  invariant [d] acc st
    (fst (download_date catalog transfer dataset outpath d acc st))
    (snd (download_date catalog transfer dataset outpath d acc st)).
Proof.
  unfold download_date, run_invariant.
  destruct (catalog dataset d) as [g |] eqn:Hcat; simpl.
  - assert (Hd : d ∈ [d]) by apply list_elem_of_here.
    destruct (decide (local_path outpath g ∈ local_files st)) as [Hin | Hout]; simpl;
      [| destruct (transfer (g_url g)); simpl].
    + repeat split; try done.
      * intros p Hp. apply elem_of_app. by left.
      * intros p Hp. apply elem_of_app in Hp as [Hp | Hp]; [by left |].
        apply list_elem_of_singleton in Hp as ->. right. by exists d, g.
      * intros d' g' Hd' Hcat' _. apply list_elem_of_singleton in Hd' as ->.
        rewrite Hcat in Hcat'. injection Hcat' as <-.
        apply elem_of_app. right. apply list_elem_of_here.
      * by left.
      * by left.
    + repeat split.
      * apply union_subseteq_r.
      * intros p Hp. apply elem_of_app. by left.
      * intros p Hp. apply elem_of_app in Hp as [Hp | Hp]; [by left |].
        apply list_elem_of_singleton in Hp as ->. right. exists d, g.
        repeat split; try done. apply elem_of_union. left. by apply elem_of_singleton.
      * intros d' g' Hd' Hcat' _. apply list_elem_of_singleton in Hd' as ->.
        rewrite Hcat in Hcat'. injection Hcat' as <-.
        apply elem_of_app. right. apply list_elem_of_here.
      * intros u Hu. apply elem_of_app in Hu as [Hu | Hu]; [by left |].
        apply list_elem_of_singleton in Hu as ->. right. by exists d, g.
      * by left.
    + repeat split; try done.
      * intros p Hp. by left.
      * intros d' g' Hd' Hcat' Hpresent. apply list_elem_of_singleton in Hd' as ->.
        rewrite Hcat in Hcat'. injection Hcat' as <-. by destruct Hout.
      * intros u Hu. apply elem_of_app in Hu as [Hu | Hu]; [by left |].
        apply list_elem_of_singleton in Hu as ->. right. by exists d, g.
      * intros u Hu. apply elem_of_app in Hu as [Hu | Hu]; [by left |].
        apply list_elem_of_singleton in Hu as ->. right. by exists d, g.
  - repeat split; try done; try (by left).
    intros d' g' Hd' Hcat'. apply list_elem_of_singleton in Hd' as ->. congruence.
Qed.

Lemma run_invariant_nil (acc : dl_result) (st : dl_state) : invariant [] acc st acc st.
Proof.
  unfold run_invariant. repeat split; try done; try (by left).
  intros d g Hd. by apply elem_of_nil in Hd.
Qed.

Lemma run_invariant_cons (d : Z) (dates : list Z)
    (acc acc1 acc2 : dl_result) (st st1 st2 : dl_state) :
  invariant [d] acc st acc1 st1 ->
  invariant dates acc1 st1 acc2 st2 ->
  invariant (d :: dates) acc st acc2 st2.
Proof.
  intros (Hl1 & Hk1 & Hd1 & Hp1 & Hr1 & Hf1) (Hl2 & Hk2 & Hd2 & Hp2 & Hr2 & Hf2).
  assert (Hhere : forall x, x ∈ [d] -> x ∈ d :: dates).
  { intros x Hx. apply list_elem_of_singleton in Hx as ->. apply list_elem_of_here. }
  unfold run_invariant. repeat split.
  - by transitivity (local_files st1).
  - auto.
  - intros p Hp. destruct (Hd2 p Hp) as [Hp1' | (d' & g & Hd' & Hcat & Heq & Hin)].
    + destruct (Hd1 p Hp1') as [? | (d' & g & Hd' & Hcat & Heq & Hin)]; [by left |].
      right. exists d', g. repeat split; auto.
    + right. exists d', g. repeat split; auto. by apply list_elem_of_further.
  - intros d' g Hd' Hcat Hin. apply elem_of_cons in Hd' as [-> | Hd'].
    + apply Hk2. apply (Hp1 d g); auto. apply list_elem_of_here.
    + apply (Hp2 d' g); auto.
  - intros u Hu. destruct (Hr2 u Hu) as [Hu1 | (d' & g & Hd' & Hcat & Heq & Hout)].
    + destruct (Hr1 u Hu1) as [? | (d' & g & Hd' & Hcat & Heq & Hout)]; [by left |].
      right. exists d', g. repeat split; auto.
    + right. exists d', g.
      split; [by apply list_elem_of_further |]. split; [done |]. split; [done |].
      intros Hin. apply Hout. auto.
  - intros u Hu. destruct (Hf2 u Hu) as [Hu1 | (d' & g & Hd' & Hcat & Heq & Hout)].
    + destruct (Hf1 u Hu1) as [? | (d' & g & Hd' & Hcat & Heq & Hout)]; [by left |].
      right. exists d', g. repeat split; auto.
    + right. exists d', g.
      split; [by apply list_elem_of_further |]. split; [done |]. split; [done |].
      intros Hin. apply Hout. auto.
Qed.

Lemma download_dates_invariant (transfer : string -> bool) (dates : list Z)
    (acc : dl_result) (st : dl_state) :
  invariant dates acc st
    (fst (download_dates catalog transfer dataset outpath dates acc st))
    (snd (download_dates catalog transfer dataset outpath dates acc st)).
Proof.
  revert acc st. induction dates as [|d dates IH]; intros acc st; simpl.
  - apply run_invariant_nil.
  - pose proof (download_date_invariant transfer d acc st) as Hstep.
    destruct (download_date catalog transfer dataset outpath d acc st) as [acc1 st1].
    eapply run_invariant_cons; [exact Hstep | apply IH].
Qed.

End DownloaderFacts.

(** C6. Re-invoking the download over the same range: the second run
    requests only granules whose file was not present when it started,
    reports every granule of the range whose file was present as
    downloaded, counts none of them as failed, and reports again
    everything the first run reported as downloaded. *)
Theorem redownload_idempotent (catalog : string -> Z -> option granule)
    (transfer1 transfer2 : string -> bool) (dataset outpath : string)
    (start_date end_date : Z) (parallel : bool) (st0 : dl_state) :
  let first := download_timerange catalog transfer1 dataset start_date end_date
                 outpath parallel st0 in
  let present := local_files (snd first) in
  let second := download_timerange catalog transfer2 dataset start_date end_date
                  outpath parallel {| local_files := present; requests := [] |} in
  (forall u, u ∈ requests (snd second) ->
     exists d g, start_date <= d <= end_date /\ catalog dataset d = Some g /\
                 g_url g = u /\ local_path outpath g ∉ present) /\
  (forall d g, start_date <= d <= end_date -> catalog dataset d = Some g ->
     local_path outpath g ∈ present ->
     local_path outpath g ∈ dl_granules (fst second)) /\
  (forall u, u ∈ failed_dls (fst second) ->
     exists d g, start_date <= d <= end_date /\ catalog dataset d = Some g /\
                 g_url g = u /\ local_path outpath g ∉ present) /\
  (forall p, p ∈ dl_granules (fst first) ->
     p ∈ present /\ p ∈ dl_granules (fst second)).
Proof.
  intros first present second.
  assert (Hrange : forall d, d ∈ seqZ start_date (end_date - start_date + 1) <->
                             start_date <= d <= end_date).
  { intros d. rewrite elem_of_seqZ. lia. }
  destruct (download_dates_invariant catalog dataset outpath transfer1
              (seqZ start_date (end_date - start_date + 1))
              {| dl_granules := []; dates_notfound := []; failed_dls := [] |} st0)
    as (_ & _ & Hd1 & _ & _ & _).
  destruct (download_dates_invariant catalog dataset outpath transfer2
              (seqZ start_date (end_date - start_date + 1))
              {| dl_granules := []; dates_notfound := []; failed_dls := [] |}
              {| local_files := present; requests := [] |})
    as (_ & _ & _ & Hp2 & Hr2 & Hf2).
  fold first in Hd1. fold second in Hp2, Hr2, Hf2. simpl in Hd1, Hp2, Hr2, Hf2.
  split; [| split; [| split]].
  - intros u Hu. destruct (Hr2 u Hu) as [Hnil | (d & g & Hd & H)].
    + by apply elem_of_nil in Hnil.
    + exists d, g. by rewrite <- Hrange.
  - intros d g Hd. apply Hp2. by apply Hrange.
  - intros u Hu. destruct (Hf2 u Hu) as [Hnil | (d & g & Hd & H)].
    + by apply elem_of_nil in Hnil.
    + exists d, g. by rewrite <- Hrange.
  - intros p Hp. destruct (Hd1 p Hp) as [Hnil | (d & g & Hd & Hcat & -> & Hin)].
    + by apply elem_of_nil in Hnil.
    + split; [exact Hin |]. by apply (Hp2 d g).
Qed.

(** A first run over days 1 to 3 on the flaky link, then a second one
    on a good link: the second run requests only the granule that
    failed, and reports both as downloaded. *)
Example redownload_small :
  let first := download_timerange small_catalog flaky_transfer "OCO3_L2_Lite_SIF.11r" 1 3
                 "data/2020-04" true {| local_files := ∅; requests := [] |} in
  let second := download_timerange small_catalog good_transfer "OCO3_L2_Lite_SIF.11r" 1 3
                  "data/2020-04" true
                  {| local_files := local_files (snd first); requests := [] |} in
  fst first = {| dl_granules := ["data/2020-04/a.nc4"];
                 dates_notfound := [2];
                 failed_dls := ["https://archive/c.nc4"] |} /\
  requests (snd first) = ["https://archive/a.nc4"; "https://archive/c.nc4"] /\
  fst second = {| dl_granules := ["data/2020-04/a.nc4"; "data/2020-04/c.nc4"];
                  dates_notfound := [2];
                  failed_dls := [] |} /\
  requests (snd second) = ["https://archive/c.nc4"].
Proof. vm_compute. repeat split. Qed.

(** * Further properties of the converter *)










(** X6. The saved image has the shape of the band, and a pixel is
    transparent exactly when its sample is above the threshold: a
    sample at most the threshold is drawn opaque, in the colour the
    colormap gives it under the scale in use. *)
Theorem image_shape_and_opacity (viridis : Colormap)
    (geotiff_path output_png_path output_metadata_path : string)
    (threshold : option Z) (src : DatasetReader) (fs fs' : filesystem) :
  fs !! geotiff_path = Some (GeoTiff src) ->
  output_png_path <> output_metadata_path ->
  convert_geotiff_to_png viridis geotiff_path output_png_path output_metadata_path
    threshold fs = (Ok tt, fs') ->
  let t := default default_threshold threshold in
  let data : list (list Z) := band1 src in
  exists fig norm,
    fs' !! output_png_path = Some (PngFile fig) /\
    color_scale data t = Ok norm /\
    length (fig_image fig) = length data /\
    (forall i row, data !! i = Some row ->
       exists prow, fig_image fig !! i = Some prow /\ length prow = length row /\
         forall j v, row !! j = Some v ->
           exists px, prow !! j = Some px /\
             (alpha px = 0 <-> t < v) /\
             (v <= t -> alpha px = 255 /\
                        (red px, green px, blue px) = cm_lookup viridis norm v)).
Proof.
  intros Hsrc Hne Hrun t data.
  destruct (convert_ok_inv _ _ _ _ _ _ _ _ Hsrc Hrun) as (c & norm & _ & Hscale & ->).
  eexists _, norm. split; [by rewrite lookup_insert_ne, lookup_insert_eq |].
  split; [exact Hscale |].
  cbn [saved_figure fig_image]. fold t. fold data. rewrite imshow_masked.
  split; [apply List.length_map |].
  intros i row Hi. eexists. split; [by rewrite lookup_map, Hi |].
  split; [apply List.length_map |].
  intros j v Hj. eexists. split; [by rewrite lookup_map, Hj |].
  cbn [set_bad cm_bad cm_lookup].
  destruct (Z.ltb_spec t v) as [Hgt | Hle].
  - cbn. split; [done | lia].
  - destruct (cm_lookup viridis norm v) as [[r g] b]. cbn.
    split; [split; [discriminate | lia] | done].
Qed.

Lemma image_shape_and_opacity_witness :
  exists fig norm,
    converted_fs !! "data/GOSIF_2020.M06.png" = Some (PngFile fig) /\
    color_scale (band1 small_raster) 32760 = Ok norm /\
    length (fig_image fig) = 2%nat.
Proof.
  destruct (image_shape_and_opacity flat_colormap
              "data/GOSIF_2020.M06.tif" "data/GOSIF_2020.M06.png"
              "data/GOSIF_2020.M06_metadata.json" None small_raster small_fs converted_fs)
    as (fig & norm & Hpng & Hscale & Hlen & _).
  - reflexivity.
  - discriminate.
  - vm_compute. reflexivity.
  - by exists fig, norm.
Defined.

(** X7. A colour scale that is computed is in order and closed in by
    the threshold: both bounds are samples of the band, [vmin <= vmax
    <= threshold], and every sample at most the threshold lies between
    them. *)
Theorem color_scale_ordered (data : ndarray) (t : Z) (norm : Normalize) :
  color_scale data t = Ok norm ->
  exists lo hi,
    norm = {| vmin := Some lo; vmax := Some hi |} /\
    lo ∈ concat data /\ hi ∈ concat data /\
    lo <= hi <= t /\
    forall v, v ∈ concat data -> v <= t -> lo <= v <= hi.
Proof.
  intros Hscale.
  destruct (valid_samples data t) as [|x xs] eqn:Hvalid.
  { rewrite (color_scale_none _ _ Hvalid) in Hscale. discriminate. }
  rewrite (color_scale_some _ _ _ _ Hvalid) in Hscale. injection Hscale as <-.
  destruct (fold_min_is_min xs x) as [Hlo_in Hlo], (fold_max_is_max xs x) as [Hhi_in Hhi].
  rewrite <- Hvalid in Hlo_in, Hlo, Hhi_in, Hhi.
  exists (fold_left Z.min xs x), (fold_left Z.max xs x).
  split; [done |].
  pose proof (proj1 (valid_samples_spec _ _ _) Hlo_in) as [Hlo_data _].
  pose proof (proj1 (valid_samples_spec _ _ _) Hhi_in) as [Hhi_data Hhi_t].
  repeat split; try done.
  - by apply Hlo.
  - apply Hlo. by apply valid_samples_spec.
  - apply Hhi. by apply valid_samples_spec.
Qed.

Lemma color_scale_ordered_witness :
  exists lo hi,
    {| vmin := Some 120; vmax := Some 4500 |} = {| vmin := Some lo; vmax := Some hi |} /\
    lo ∈ concat (band1 small_raster) /\ hi ∈ concat (band1 small_raster) /\
    lo <= hi <= 32760 /\
    forall v, v ∈ concat (band1 small_raster) -> v <= 32760 -> lo <= v <= hi.
Proof.
  exact (color_scale_ordered (band1 small_raster) 32760
           {| vmin := Some 120; vmax := Some 4500 |} eq_refl).
Defined.

Lemma color_scale_of_valid (data : ndarray) (t : Z) :
  color_scale data t =
  match valid_samples data t with
  | [] => Err ValueError
  | x :: xs => Ok {| vmin := Some (fold_left Z.min xs x); vmax := Some (fold_left Z.max xs x) |}
  end.
Proof.
  destruct (valid_samples data t) as [|x xs] eqn:Hvalid.
  - by apply color_scale_none.
  - by apply color_scale_some.
Qed.

Lemma valid_samples_up_to_fill (t : Z) (data data' : list (list Z)) :
  Forall2 (Forall2 (fun v v' => v = v' \/ (t < v /\ t < v'))) data data' ->
  valid_samples data t = valid_samples data' t.
Proof.
  intros Hrows. unfold valid_samples.
  assert (Hflat : Forall2 (fun v v' => v = v' \/ (t < v /\ t < v')) (concat data) (concat data')).
  { induction Hrows as [|row row' rows rows' Hrow _ IH]; simpl; [constructor |].
    by apply Forall2_app. }
  induction Hflat as [|v v' l l' Hv _ IH]; [done |].
  rewrite !filter_cons. destruct Hv as [<- | [Hv Hv']].
  - destruct (decide (v <=? t)); by rewrite IH.
  - destruct (Z.leb_spec v t), (Z.leb_spec v' t); try lia. simpl. exact IH.
Qed.

(** X8. The colour scale does not depend on which values mark missing
    data: replacing samples above the threshold by other values above
    the threshold gives the same scale, or the same error. *)
Theorem color_scale_up_to_fill (t : Z) (data data' : list (list Z)) :
  Forall2 (Forall2 (fun v v' => v = v' \/ (t < v /\ t < v'))) data data' ->
  color_scale data t = color_scale data' t.
Proof.
  intros Hrows. rewrite !color_scale_of_valid.
  by rewrite (valid_samples_up_to_fill t data data' Hrows).
Qed.

(** The small raster with its two fill values exchanged. *)
Lemma color_scale_up_to_fill_witness :
  color_scale [[120; 32767]; [32766; 4500]] 32760 =
  color_scale [[120; 32766]; [32767; 4500]] 32760.
Proof.
  apply color_scale_up_to_fill.
  repeat constructor; lia.
Defined.

(** X19. Raising the threshold can only widen the colour scale: when
    the scale is computed for a threshold, it is computed for every
    higher one, with a lower bound no greater and an upper bound no
    smaller. *)
Theorem color_scale_widens (data : ndarray) (t t' lo hi : Z) :
  color_scale data t = Ok {| vmin := Some lo; vmax := Some hi |} ->
  t <= t' ->
  exists lo' hi',
    color_scale data t' = Ok {| vmin := Some lo'; vmax := Some hi' |} /\
    lo' <= lo /\ hi <= hi'.
Proof.
  intros Hscale Ht. rewrite color_scale_of_valid in Hscale.
  destruct (valid_samples data t) as [|x xs] eqn:Hvalid; [discriminate |].
  injection Hscale as <- <-.
  destruct (fold_min_is_min xs x) as [Hlo _], (fold_max_is_max xs x) as [Hhi _].
  rewrite <- Hvalid in Hlo, Hhi.
  apply valid_samples_spec in Hlo as [Hlo Hlo_t], Hhi as [Hhi Hhi_t].
  assert (Hlo' : fold_left Z.min xs x ∈ valid_samples data t')
    by (apply valid_samples_spec; split; [done | lia]).
  assert (Hhi' : fold_left Z.max xs x ∈ valid_samples data t')
    by (apply valid_samples_spec; split; [done | lia]).
  rewrite color_scale_of_valid.
  destruct (valid_samples data t') as [|y ys] eqn:Hvalid'.
  { by apply elem_of_nil in Hlo'. }
  destruct (fold_min_is_min ys y) as [_ Hmin], (fold_max_is_max ys y) as [_ Hmax].
  eexists _, _. split; [reflexivity |]. split; [by apply Hmin | by apply Hmax].
Qed.

(** The small raster: at 32760 the scale is 120 to 4500; at 32766 the
    snow value 32766 counts as data and becomes the upper bound. *)
Lemma color_scale_widens_witness :
  exists lo' hi',
    color_scale (band1 small_raster) 32766 = Ok {| vmin := Some lo'; vmax := Some hi' |} /\
    lo' <= 120 /\ 4500 <= hi'.
Proof.
  refine (color_scale_widens (band1 small_raster) 32760 32766 120 4500 eq_refl _).
  lia.
Defined.

(** * Further properties of the viewer *)

Section ViewerOutcomes.

Variable fetch : string -> result jserr Response.
Variable ImageStatic_throws : ImageStatic -> option jserr.
Variable Image_throws : ImageStatic -> float -> option jserr.
Variables pngUrl metadataUrl : string.

Abbreviation load := (loadGeoPNG fetch ImageStatic_throws Image_throws pngUrl metadataUrl).

(** The run on a sidecar that is an object with an object for its
    bounds. *)
Lemma loadGeoPNG_object_run (st : page) (resp : Response)
    (props bprops : list (string * jsval)) :
  fetch metadataUrl = Ok resp ->
  Response_json resp = Ok (JsObject props) ->
  get_prop "bounds" props = JsObject bprops ->
  (forall options, ImageStatic_throws options = None) ->
  (forall source opacity, Image_throws source opacity = None) ->
  load st =
  if (length (layers st) <? 1)%nat
  then (Ok tt, failure_logged st (OlError "Index out of bounds"))
  else (Ok tt, overlay_placed st
                 {| url := pngUrl;
                    imageExtent := JsArray [get_prop "left" bprops; get_prop "bottom" bprops;
                                            get_prop "right" bprops; get_prop "top" bprops];
                    projection := js_or (get_prop "crs" props) (JsString "EPSG:4326") |}).
Proof.
  intros Hf Hj Hb HIS HI.
  unfold loadGeoPNG, try_catch, loadGeoPNG_try, bind, lift.
  rewrite Hf, Hj. cbn [js_get]. rewrite Hb. cbn [js_get].
  unfold new_ImageStatic. rewrite HIS. unfold new_Image. rewrite HI.
  unfold insertAt. by destruct (length (layers st) <? 1)%nat.
Qed.

(** The two ways a run can end. *)
Lemma loadGeoPNG_two_ways (st : page) :
  (exists e, load st = (Ok tt, failure_logged st e) /\
             loadGeoPNG_try fetch ImageStatic_throws Image_throws pngUrl metadataUrl st
             = (Err e, st)) \/
  (exists extent proj,
     load st = (Ok tt, overlay_placed st {| url := pngUrl; imageExtent := extent;
                                            projection := proj |}) /\
     (1 <= length (layers st))%nat).
Proof.
  destruct (loadGeoPNG_try_cases fetch ImageStatic_throws Image_throws pngUrl metadataUrl st)
    as [(e & Hfail) | (resp & metadata & bnds & l & b & r & tp & c & H)].
  - left. exists e. split; [| done]. by apply (loadGeoPNG_on_failure _ _ _ _ _ _ _ _ Hfail).
  - right. destruct H as (Hf & Hj & Hb & Hl & Hbo & Hr & Ht & Hc & Hok).
    eexists _, _. split; [by apply loadGeoPNG_on_success |].
    revert Hok. unfold loadGeoPNG_try, bind, lift.
    rewrite Hf, Hj, Hb, Hl, Hbo, Hr, Ht, Hc.
    destruct (new_ImageStatic _ _) as [source | e]; [| discriminate].
    destruct (new_Image _ _ _) as [sifLayer | e]; [| discriminate].
    unfold insertAt. destruct (Nat.ltb_spec (length (layers st)) 1); [discriminate | lia].
Qed.

(** X9. [loadGeoPNG] has two outcomes and no other: it logs one error
    and leaves the layers as they are, or it splices one image layer
    of the given URL in at index 1 and logs nothing.  It never throws,
    and never removes or reorders a layer. *)
Theorem loadGeoPNG_outcomes (st : page) :
  (exists e, load st = (Ok tt, failure_logged st e)) \/
  (exists extent proj,
     load st = (Ok tt, overlay_placed st {| url := pngUrl; imageExtent := extent;
                                            projection := proj |})).
Proof.
  destruct (loadGeoPNG_try_cases fetch ImageStatic_throws Image_throws pngUrl metadataUrl st)
    as [(e & Hfail) | (resp & metadata & bnds & l & b & r & tp & c & H)].
  - left. exists e. by apply (loadGeoPNG_on_failure _ _ _ _ _ _ _ _ Hfail).
  - right. destruct H as (_ & _ & _ & _ & _ & _ & _ & _ & Hok).
    eexists _, _. by apply loadGeoPNG_on_success.
Qed.

(** X10. A sidecar without usable bounds is a logged [TypeError]: when
    the fetched value is [null], is not an object, or is an object
    whose [bounds] member is missing or [null], no overlay is placed
    and the console gets the [TypeError]. *)
Theorem missing_bounds_logged (st : page) (resp : Response) (metadata : jsval) :
  fetch metadataUrl = Ok resp ->
  Response_json resp = Ok metadata ->
  (forall props, metadata = JsObject props ->
     get_prop "bounds" props = JsUndefined \/ get_prop "bounds" props = JsNull) ->
  load st = (Ok tt, failure_logged st TypeError).
Proof.
  intros Hf Hj Hbounds.
  apply loadGeoPNG_on_failure with (st_e := st).
  unfold loadGeoPNG_try, bind, lift. rewrite Hf, Hj.
  destruct metadata as [| | b | n | s | items | props]; try reflexivity.
  cbn [js_get]. by destruct (Hbounds props eq_refl) as [-> | ->].
Qed.

(** X11. A well-formed sidecar places the overlay whatever its bounds
    object holds: the extent is the four members as they are read, and
    a member the object does not have is [undefined] in it.  Nothing
    checks that the four are numbers. *)
Theorem overlay_from_object (st : page) (resp : Response)
    (props bprops : list (string * jsval)) :
  fetch metadataUrl = Ok resp ->
  Response_json resp = Ok (JsObject props) ->
  get_prop "bounds" props = JsObject bprops ->
  (forall options, ImageStatic_throws options = None) ->
  (forall source opacity, Image_throws source opacity = None) ->
  (1 <= length (layers st))%nat ->
  load st =
  (Ok tt, overlay_placed st
            {| url := pngUrl;
               imageExtent := JsArray [get_prop "left" bprops; get_prop "bottom" bprops;
                                       get_prop "right" bprops; get_prop "top" bprops];
               projection := js_or (get_prop "crs" props) (JsString "EPSG:4326") |}) /\
  (forall key, (forall v, (key, v) ∉ bprops) -> get_prop key bprops = JsUndefined).
Proof.
  intros Hf Hj Hb HIS HI Hlen. split; [| intros key Habs; by apply get_prop_absent].
  rewrite (loadGeoPNG_object_run st resp props bprops Hf Hj Hb HIS HI).
  by destruct (Nat.ltb_spec (length (layers st)) 1); [lia |].
Qed.

(** X12. On a map without any layer the overlay is never placed: index
    1 is past the end of the collection, so even a good sidecar ends
    in a logged error and an empty collection. *)
Theorem no_overlay_on_empty_map (st : page) :
  layers st = [] ->
  (exists e, load st = (Ok tt, failure_logged st e)) /\
  (forall resp props bprops,
     fetch metadataUrl = Ok resp ->
     Response_json resp = Ok (JsObject props) ->
     get_prop "bounds" props = JsObject bprops ->
     (forall options, ImageStatic_throws options = None) ->
     (forall source opacity, Image_throws source opacity = None) ->
     load st = (Ok tt, failure_logged st (OlError "Index out of bounds"))).
Proof.
  intros Hempty. split.
  - destruct (loadGeoPNG_two_ways st) as [(e & Hlogged & _) | (extent & proj & _ & Hlen)].
    + by exists e.
    + rewrite Hempty in Hlen. simpl in Hlen. lia.
  - intros resp props bprops Hf Hj Hb HIS HI.
    rewrite (loadGeoPNG_object_run st resp props bprops Hf Hj Hb HIS HI).
    by rewrite Hempty.
Qed.

End ViewerOutcomes.

Lemma missing_bounds_logged_witness :
  loadGeoPNG (fetch_doc doc_without_bounds) no_throw_source no_throw_layer
    pngFile metadataFile page_before_overlay =
  (Ok tt, {| layers := [baseLayer; labelsLayer];
             console := [("Error loading colormapped PNG:", TypeError)] |}).
Proof.
  refine (missing_bounds_logged (fetch_doc doc_without_bounds) no_throw_source no_throw_layer
            pngFile metadataFile page_before_overlay
            {| resp_body := Doc doc_without_bounds |}
            (JsObject [("width", JsNumber 2%float); ("height", JsNumber 2%float)])
            eq_refl eq_refl _).
  intros props [= <-]. by left.
Defined.

(** Bounds without a [top]: the overlay is placed all the same, with
    [undefined] as the last entry of its extent. *)
Lemma overlay_from_object_witness :
  loadGeoPNG (fetch_doc doc_without_top) no_throw_source no_throw_layer
    pngFile metadataFile page_before_overlay =
  (Ok tt, {| layers := [baseLayer;
                        Image {| url := "data/GOSIF_2020.M06.png";
                                 imageExtent := JsArray [JsNumber (-180)%float;
                                                         JsNumber (-90)%float;
                                                         JsNumber 180%float; JsUndefined];
                                 projection := JsString "EPSG:4326" |} opacity_0_9;
                        labelsLayer];
             console := [] |}).
Proof.
  refine (proj1 (overlay_from_object (fetch_doc doc_without_top) no_throw_source no_throw_layer
                   pngFile metadataFile page_before_overlay
                   {| resp_body := Doc doc_without_top |}
                   [("bounds", JsObject [("left", JsNumber (-180)%float);
                                         ("bottom", JsNumber (-90)%float);
                                         ("right", JsNumber 180%float)]);
                    ("crs", JsString "EPSG:4326")]
                   [("left", JsNumber (-180)%float); ("bottom", JsNumber (-90)%float);
                    ("right", JsNumber 180%float)]
                   eq_refl eq_refl eq_refl _ _ _)).
  - reflexivity.
  - reflexivity.
  - simpl. lia.
Defined.

Lemma no_overlay_on_empty_map_witness :
  loadGeoPNG fetch_without_crs no_throw_source no_throw_layer pngFile metadataFile empty_page =
  (Ok tt, {| layers := [];
             console := [("Error loading colormapped PNG:", OlError "Index out of bounds")] |}).
Proof.
  refine (proj2 (no_overlay_on_empty_map fetch_without_crs no_throw_source no_throw_layer
                   pngFile metadataFile empty_page eq_refl)
            {| resp_body := Doc doc_without_crs |}
            [("bounds", JsObject [("left", JsNumber (-180)%float);
                                  ("bottom", JsNumber (-90)%float);
                                  ("right", JsNumber 180%float);
                                  ("top", JsNumber 90%float)])]
            [("left", JsNumber (-180)%float); ("bottom", JsNumber (-90)%float);
             ("right", JsNumber 180%float); ("top", JsNumber 90%float)]
            eq_refl eq_refl eq_refl _ _).
  - reflexivity.
  - reflexivity.
Defined.

(** * The page as a whole *)

(** X13. The load handler never throws and ends in one of two pages:
    the base layer, the overlay and the labels, in this order, with an
    empty console; or the base layer and the labels, with one error
    logged.  The overlay, when there is one, is under the labels and
    shows the page's own image file. *)
Theorem page_after_load (fetch : string -> result jserr Response)
    (ImageStatic_throws : ImageStatic -> option jserr)
    (Image_throws : ImageStatic -> float -> option jserr) :
  let run := on_DOMContentLoaded fetch ImageStatic_throws Image_throws initial_page in
  (exists e,
     run = (Ok tt, {| layers := [baseLayer; labelsLayer];
                      console := [("Error loading colormapped PNG:", e)] |})) \/
  (exists extent proj,
     run = (Ok tt, {| layers := [baseLayer;
                                 Image {| url := "data/GOSIF_2020.M06.png";
                                          imageExtent := extent;
                                          projection := proj |} opacity_0_9;
                                 labelsLayer];
                      console := [] |})).
Proof.
  intros run. subst run. unfold on_DOMContentLoaded, bind. cbn [insertAt initial_page].
  change (insertAt 1 labelsLayer initial_page) with (@Ok jserr unit tt, page_before_overlay).
  destruct (loadGeoPNG_two_ways fetch ImageStatic_throws Image_throws pngFile metadataFile
              page_before_overlay) as [(e & -> & _) | (extent & proj & -> & _)].
  - left. by exists e.
  - right. by exists extent, proj.
Qed.

(** X14. The notebook's example call and the page fit together: after
    the cell has converted a raster with finite bounds, the page,
    served from the same directory, shows the image file the cell
    wrote, stretched over the raster's bounds, under the labels, in
    the raster's reference system (in ['EPSG:4326'] when the raster's
    is the empty string), and logs nothing. *)
Theorem notebook_then_page (viridis : Colormap)
    (ImageStatic_throws : ImageStatic -> option jserr)
    (Image_throws : ImageStatic -> float -> option jserr)
    (src : DatasetReader) (c : string) (fs : filesystem) :
  fs !! "data/GOSIF_2020.M06.tif" = Some (GeoTiff src) ->
  crs src = Some c ->
  (exists v, v ∈ concat (band1 src) /\ v <= 32760) ->
  bounds_finite (bounds src) = true ->
  (forall options, ImageStatic_throws options = None) ->
  (forall source opacity, Image_throws source opacity = None) ->
  let fs' := snd (example_usage viridis fs) in
  (exists fig, fs' !! "data/GOSIF_2020.M06.png" = Some (PngFile fig)) /\
  on_DOMContentLoaded (serve fs') ImageStatic_throws Image_throws initial_page =
  (Ok tt, {| layers := [baseLayer;
                        Image {| url := "data/GOSIF_2020.M06.png";
                                 imageExtent := extent_of_bounds (bounds src);
                                 projection :=
                                   JsString (match c with
                                             | EmptyString => "EPSG:4326"
                                             | String _ _ => c
                                             end) |} opacity_0_9;
                        labelsLayer];
             console := [] |}).
Proof.
  intros Hsrc Hcrs Hvalid Hfin HIS HI fs'.
  destruct (some_valid _ _ Hvalid) as (x & xs & Hxs).
  assert (Hfs' : fs' = <["data/GOSIF_2020.M06_metadata.json" :=
                          JsonFile (sidecar (bounds src) (width src) (height src) c)]>
                        (<["data/GOSIF_2020.M06.png" :=
                            PngFile (saved_figure viridis 32760 src
                                       {| vmin := Some (fold_left Z.min xs x);
                                          vmax := Some (fold_left Z.max xs x) |})]> fs)).
  { subst fs'. unfold example_usage. rewrite convert_run, Hsrc, Hcrs.
    cbn [default]. change default_threshold with 32760.
    by rewrite (color_scale_some _ _ _ _ Hxs). }
  split.
  { eexists. rewrite Hfs'. rewrite lookup_insert_ne by discriminate. apply lookup_insert_eq. }
  unfold on_DOMContentLoaded, bind.
  change (insertAt 1 labelsLayer initial_page) with (@Ok jserr unit tt, page_before_overlay).
  cbv iota beta.
  rewrite (loadGeoPNG_object_run (serve fs') ImageStatic_throws Image_throws
             pngFile metadataFile page_before_overlay
             {| resp_body := Doc (sidecar (bounds src) (width src) (height src) c) |}
             [("bounds", JsObject [("left", JsNumber (BoundingBox.left (bounds src)));
                                   ("bottom", JsNumber (BoundingBox.bottom (bounds src)));
                                   ("right", JsNumber (BoundingBox.right (bounds src)));
                                   ("top", JsNumber (BoundingBox.top (bounds src)))]);
              ("width", JsNumber (float_of_Z (width src)));
              ("height", JsNumber (float_of_Z (height src)));
              ("crs", JsString c)]
             [("left", JsNumber (BoundingBox.left (bounds src)));
              ("bottom", JsNumber (BoundingBox.bottom (bounds src)));
              ("right", JsNumber (BoundingBox.right (bounds src)));
              ("top", JsNumber (BoundingBox.top (bounds src)))]).
  - unfold overlay_placed, extent_of_bounds. cbn -[opacity_0_9]. by destruct c.
  - rewrite Hfs'. apply serve_written.
  - by rewrite Response_json_sidecar, Hfin.
  - reflexivity.
  - exact HIS.
  - exact HI.
Qed.

(** The small raster, from the cell to the page. *)
Lemma notebook_then_page_witness :
  on_DOMContentLoaded (serve converted_fs) no_throw_source no_throw_layer initial_page =
  (Ok tt, {| layers := [baseLayer;
                        Image {| url := "data/GOSIF_2020.M06.png";
                                 imageExtent := JsArray [JsNumber (-180)%float;
                                                         JsNumber (-90)%float;
                                                         JsNumber 180%float;
                                                         JsNumber 90%float];
                                 projection := JsString "EPSG:4326" |} opacity_0_9;
                        labelsLayer];
             console := [] |}).
Proof.
  refine (proj2 (notebook_then_page flat_colormap no_throw_source no_throw_layer
                   small_raster "EPSG:4326" small_fs _ _ _ _ _ _)).
  - reflexivity.
  - reflexivity.
  - exists 120. split; [apply list_elem_of_here | done].
  - reflexivity.
  - reflexivity.
  - reflexivity.
Defined.

(** * The style functions *)

(** ** Order on doubles *)

Lemma SFcompare_antisym (a b : spec_float) :
  SFcompare b a = option_map CompOpp (SFcompare a b).
Proof.
  destruct a as [sa | sa | | sa ma ea], b as [sb | sb | | sb mb eb]; simpl;
    try reflexivity; try (destruct sa; reflexivity); try (destruct sb; reflexivity);
    try (destruct sa, sb; reflexivity).
  destruct sa, sb; simpl; try reflexivity.
  - pose proof (Pos.compare_cont_antisym ma mb Eq) as Hm. simpl in Hm.
    rewrite (Z.compare_antisym ea eb). destruct (ea ?= eb); simpl; try reflexivity.
    rewrite <- Hm. destruct (Pos.compare_cont Eq ma mb); reflexivity.
  - pose proof (Pos.compare_cont_antisym ma mb Eq) as Hm. simpl in Hm.
    rewrite (Z.compare_antisym ea eb). destruct (ea ?= eb); simpl; try reflexivity.
    rewrite <- Hm. reflexivity.
Qed.

Lemma SFcompare_refl (a : spec_float) : a <> S754_nan -> SFcompare a a = Some Eq.
Proof.
  destruct a as [s | s | | s m e]; simpl; intros Hn; try reflexivity.
  - by destruct s.
  - congruence.
  - rewrite Z.compare_refl, (Pos.compare_cont_refl m Eq). by destruct s.
Qed.

Lemma is_nan_false (x : float) : PrimFloat.is_nan x = false -> Prim2SF x <> S754_nan.
Proof.
  unfold PrimFloat.is_nan. rewrite FloatAxioms.eqb_spec. unfold SFeqb.
  intros H Hn. rewrite Hn in H. discriminate.
Qed.

Lemma is_nan_true (x : float) : PrimFloat.is_nan x = true -> Prim2SF x = S754_nan.
Proof.
  unfold PrimFloat.is_nan. rewrite FloatAxioms.eqb_spec. unfold SFeqb. intros H.
  destruct (Prim2SF x) as [s | s | | s m e] eqn:Hx; [| | reflexivity |];
    rewrite SFcompare_refl in H by discriminate; discriminate.
Qed.

Lemma is_zero_true (x : float) :
  PrimFloat.is_zero x = true -> exists s, Prim2SF x = S754_zero s.
Proof.
  unfold PrimFloat.is_zero. rewrite FloatAxioms.eqb_spec.
  change (Prim2SF PrimFloat.zero) with (S754_zero false). unfold SFeqb.
  destruct (Prim2SF x) as [s | s | | s m e]; simpl; [eauto | | discriminate |];
    destruct s; discriminate.
Qed.

(** On numbers, [x < y] is the negation of [y <= x]. *)
Lemma ltb_negb_leb (x y : float) :
  PrimFloat.is_nan x = false -> PrimFloat.is_nan y = false ->
  PrimFloat.ltb x y = negb (PrimFloat.leb y x).
Proof.
  intros Hx Hy. apply is_nan_false in Hx, Hy.
  rewrite FloatAxioms.ltb_spec, FloatAxioms.leb_spec. unfold SFltb, SFleb.
  rewrite (SFcompare_antisym (Prim2SF x) (Prim2SF y)).
  destruct (Prim2SF x) as [sa | sa | | sa ma ea] eqn:Ha; [| | congruence |];
    destruct (Prim2SF y) as [sb | sb | | sb mb eb] eqn:Hb; try congruence;
    match goal with
    | |- context [SFcompare ?a ?b] => destruct (SFcompare a b) as [[| |] |] eqn:Hc
    end; try reflexivity; simpl in Hc; try discriminate.
Qed.

(** A zoom that JavaScript takes for false (zero or [NaN]) is not at
    or above a positive number. *)
Lemma leb_positive_falsy (c z : float) (m : positive) (e : Z) :
  Prim2SF c = S754_finite false m e ->
  truthy (JsNumber z) = false ->
  PrimFloat.leb c z = false.
Proof.
  intros Hc Hz. simpl in Hz. apply negb_false_iff, orb_true_iff in Hz.
  rewrite FloatAxioms.leb_spec, Hc. unfold SFleb.
  destruct Hz as [Hz | Hz].
  - apply is_zero_true in Hz as [s ->]. reflexivity.
  - apply is_nan_true in Hz as ->. reflexivity.
Qed.

Lemma truthy_number (z : float) :
  truthy (JsNumber z) = true -> PrimFloat.is_nan z = false.
Proof.
  simpl. intros H. apply negb_true_iff, orb_false_iff in H. tauto.
Qed.

(** ** What the two layers draw *)

Lemma strict_eq_string_true (v : jsval) (s : string) :
  strict_eq_string v s = true -> v = JsString s.
Proof.
  destruct v; simpl; try discriminate.
  intros H. apply String.eqb_eq in H. by subst.
Qed.


(** X16. No feature is drawn twice: whatever the zoom, a feature that
    the base layer styles is left alone by the labels layer, and the
    other way round. *)
Theorem style_layers_disjoint (zoom : option float) (f : feature) :
  baseStyleFunction f = None \/ labelStyleFunction zoom f = None.
Proof.
  unfold baseStyleFunction, labelStyleFunction.
  destruct zoom as [z |]; [| by right].
  destruct (negb (truthy (JsNumber z))); [by right |].
  destruct (strict_eq_string (feature_get f "layer") "boundary") eqn:Hb.
  { left. apply strict_eq_string_true in Hb. by rewrite Hb. }
  destruct (strict_eq_string (feature_get f "layer") "place") eqn:Hp.
  { left. apply strict_eq_string_true in Hp. by rewrite Hp. }
  by right.
Qed.

(** X17. Borders and zoom.  The border of a state (administrative
    level 4) is drawn exactly from zoom 6 upwards; the border of a
    country (level 2) exactly up to zoom 8, except at a zoom that
    counts as false; a boundary of any other level never. *)
Theorem boundary_zoom_window (z : float) (f : feature) :
  strict_eq_string (feature_get f "layer") "boundary" = true ->
  let level := feature_get f "admin_level" in
  labelStyleFunction (Some z) f =
  if strict_eq_number level 4%float then
    if PrimFloat.leb 6%float z then Some boundary_stroke else None
  else if strict_eq_number level 2%float then
    if truthy (JsNumber z) && PrimFloat.leb z 8%float then Some boundary_stroke else None
  else None.
Proof.
  intros Hlayer level. unfold labelStyleFunction. rewrite Hlayer. fold level.
  destruct (truthy (JsNumber z)) eqn:Hz; cbn [negb andb].
  - pose proof (truthy_number z Hz) as Hnan.
    rewrite (ltb_negb_leb z 6%float Hnan eq_refl), (ltb_negb_leb 8%float z eq_refl Hnan).
    destruct (strict_eq_number level 4%float); [by destruct (PrimFloat.leb 6%float z) |].
    destruct (strict_eq_number level 2%float); [by destruct (PrimFloat.leb z 8%float) |].
    reflexivity.
  - rewrite (leb_positive_falsy 6%float z 6755399441055744 (-50) eq_refl Hz).
    by destruct (strict_eq_number level 4%float), (strict_eq_number level 2%float).
Qed.

(** The border of a state at zoom 6, and at zoom 5.5. *)
Lemma boundary_zoom_window_witness :
  labelStyleFunction (Some 6%float) state_border = Some boundary_stroke /\
  labelStyleFunction (Some 5.5%float) state_border = None.
Proof.
  split.
  - exact (boundary_zoom_window 6%float state_border eq_refl).
  - exact (boundary_zoom_window 5.5%float state_border eq_refl).
Defined.

(** X18. Labels and zoom.  The name of a country is drawn exactly at
    zooms from 2 to 6, the name of a state exactly from 6 to 12, both
    ends included (at zoom 6 both are drawn); a place of any other
    class is never labelled.  The text is the feature's [name:en],
    [undefined] when it has none. *)
Theorem label_zoom_window (z : float) (f : feature) :
  strict_eq_string (feature_get f "layer") "place" = true ->
  let class_ := feature_get f "class" in
  let label := Some (label_text (feature_get f "name:en") "12px") in
  labelStyleFunction (Some z) f =
  if strict_eq_string class_ "country" then
    if PrimFloat.leb 2%float z && PrimFloat.leb z 6%float then label else None
  else if strict_eq_string class_ "state" then
    if PrimFloat.leb 6%float z && PrimFloat.leb z 12%float then label else None
  else None.
Proof.
  intros Hlayer class_ label. unfold labelStyleFunction.
  apply strict_eq_string_true in Hlayer. rewrite Hlayer.
  change (strict_eq_string (JsString "place") "boundary") with false.
  change (strict_eq_string (JsString "place") "place") with true.
  cbn [negb]. fold class_.
  destruct (truthy (JsNumber z)) eqn:Hz; cbn [negb].
  - pose proof (truthy_number z Hz) as Hnan.
    destruct (strict_eq_string class_ "country").
    { rewrite (ltb_negb_leb z 2%float Hnan eq_refl), (ltb_negb_leb 6%float z eq_refl Hnan).
      by destruct (PrimFloat.leb 2%float z), (PrimFloat.leb z 6%float). }
    destruct (strict_eq_string class_ "state"); [| reflexivity].
    rewrite (ltb_negb_leb z 6%float Hnan eq_refl), (ltb_negb_leb 12%float z eq_refl Hnan).
    by destruct (PrimFloat.leb 6%float z), (PrimFloat.leb z 12%float).
  - rewrite (leb_positive_falsy 2%float z 4503599627370496 (-51) eq_refl Hz).
    rewrite (leb_positive_falsy 6%float z 6755399441055744 (-50) eq_refl Hz).
    by destruct (strict_eq_string class_ "country"), (strict_eq_string class_ "state").
Qed.

(** The name of a country at zoom 6, and at zoom 7. *)
Lemma label_zoom_window_witness :
  labelStyleFunction (Some 6%float) country_label =
    Some (label_text (JsString "Brazil") "12px") /\
  labelStyleFunction (Some 7%float) country_label = None.
Proof.
  split.
  - exact (label_zoom_window 6%float country_label eq_refl).
  - exact (label_zoom_window 7%float country_label eq_refl).
Defined.

(** * Writing the sidecar and reading it back *)





